(** * Current-affairs app: the Gemini request orchestrator, the Sheets
    append route and the HTML / Excel exports.

    Sources: [src/services/gemini.ts] (processCurrentAffairs),
    [server.ts] (the OAuth callback, status, logout and /api/sheets/update
    routes) and the React component (file queue, handleProcess,
    handleUpdateSheet, checkGoogleStatus, the message listener,
    handleDownloadHtml, handleDownloadExcel).  JavaScript values are
    modelled by [json] (plus [option] for undefined), strings by
    [String.string] (UTF-8 bytes), effects by explicit event traces. *)

From Stdlib Require Import String Ascii List ZArith Lia Bool.
Import ListNotations.
Open Scope string_scope.
Set Warnings "-register-all".

(** ** JavaScript values *)

Inductive json : Type :=
| JNull
| JBool (b : bool)
| JNum (z : Z)
| JStr (s : string)
| JArr (xs : list json)
| JObj (fs : list (string * json)).

(** Truthiness of a JS string: only [""] is falsy. *)
Definition str_truthy (s : string) : bool := negb (String.eqb s "").

(** Truthiness of a possibly undefined JS value ([None] is undefined). *)
Definition truthy (v : option json) : bool :=
  match v with
  | None | Some JNull => false
  | Some (JBool b) => b
  | Some (JNum z) => negb (Z.eqb z 0)
  | Some (JStr s) => str_truthy s
  | Some (JArr _) | Some (JObj _) => true
  end.

(** ** String primitives of the JS runtime (on ASCII letters) *)
Module JsString.

Definition lower_ascii (c : ascii) : ascii :=
  let n := nat_of_ascii c in
  if (Nat.leb 65 n) && (Nat.leb n 90) then ascii_of_nat (n + 32)%nat else c.

(** [s.toLowerCase()] *)
Fixpoint toLowerCase (s : string) : string :=
  match s with
  | EmptyString => EmptyString
  | String c t => String (lower_ascii c) (toLowerCase t)
  end.

(** [hay.includes(needle)] *)
Fixpoint includes (needle hay : string) : bool :=
  String.prefix needle hay ||
  match hay with
  | EmptyString => false
  | String _ t => includes needle t
  end.

(** [s.split(sep)] for a one-character separator. *)
Fixpoint split (sep : ascii) (s : string) : list string :=
  match s with
  | EmptyString => [EmptyString]
  | String c t =>
      if Ascii.eqb c sep then EmptyString :: split sep t
      else match split sep t with
           | h :: r => String c h :: r
           | [] => [String c EmptyString]
           end
  end.

(** [xs.join(sep)] on strings. *)
Fixpoint join (sep : string) (xs : list string) : string :=
  match xs with
  | [] => ""
  | [x] => x
  | x :: r => x ++ sep ++ join sep r
  end.

End JsString.

Definition comma : ascii := ",".

(** ** gemini.ts: data *)

(** [{ data: string; mimeType: string }] *)
Record file := mkFile { data : string; mimeType : string }.

(** A part of [contents[0].parts]. *)
Inductive part : Type :=
| InlineData (data mimeType : string)
| TextPart (text : string).

(** [requestConfig] *)
Record request := mkRequest {
  req_model : string;
  req_parts : list part;
  req_responseMimeType : string;
  req_responseSchema : json
}.

(** A thrown JS value, seen through the properties the catch block reads:
    [err.name], [err?.status], [err?.code], [err?.message]. *)
Record error := mkError {
  err_name : string;
  err_status : option json;
  err_code : option json;
  err_message : option json
}.

(** What the [ai.models.generateContent] call does at one attempt:
    it resolves with a response whose [text] may be undefined, or rejects. *)
Inductive outcome : Type :=
| Resp (text : option string)
| Fail (e : error).

(** Observable effects of one run. *)
Inductive event : Type :=
| ECall (req : request)
| EDelay (ms : Z).

(** Settlement of the returned promise ([RThrow None] is [throw undefined]). *)
Inductive result : Type :=
| RReturn (v : json)
| RThrow (e : option error).

(** NewsItem *)
Record NewsItem := mkNewsItem {
  title : string;
  subTitle : string;
  date : string;
  headline : string;
  content : list string;
  staticGk : list string
}.

(** ** gemini.ts: processCurrentAffairs *)
Module Gemini.

Definition MAX_RETRIES : nat := 4.
Definition BASE_DELAY_MS : Z := 5000.

(** [responseSchema] of [requestConfig] ([Type.ARRAY] is ["ARRAY"], ...). *)
Definition responseSchema : json :=
  JObj [("type", JStr "ARRAY");
        ("items", JObj [
           ("type", JStr "OBJECT");
           ("properties", JObj [
              ("title", JObj [("type", JStr "STRING")]);
              ("subTitle", JObj [("type", JStr "STRING")]);
              ("date", JObj [("type", JStr "STRING")]);
              ("headline", JObj [("type", JStr "STRING")]);
              ("content", JObj [("type", JStr "ARRAY");
                                ("items", JObj [("type", JStr "STRING")])]);
              ("staticGk", JObj [("type", JStr "ARRAY");
                                 ("items", JObj [("type", JStr "STRING")])])]);
           ("required", JArr [JStr "title"; JStr "subTitle"; JStr "date";
                              JStr "headline"; JStr "content"; JStr "staticGk"])])].

(** [file.data.split(',')[1] || file.data] *)
Definition inline_payload (d : string) : string :=
  match nth_error (JsString.split comma d) 1 with
  | Some s => if str_truthy s then s else d
  | None => d
  end.

(** [file => ({ inlineData: { data: ..., mimeType: file.mimeType } })] *)
Definition to_part (f : file) : part :=
  InlineData (inline_payload f.(data)) f.(mimeType).

(** The error built by the inner catch when [JSON.parse] throws. *)
Definition format_error : error :=
  mkError "Error" None None
    (Some (JStr "Failed to process content into structured format.")).

(** The error thrown when [GEMINI_API_KEY] is missing. *)
Definition config_error : error :=
  mkError "Error" None None
    (Some (JStr "GEMINI_API_KEY is not configured. Please add it to your environment variables.")).

Definition is_503 (v : option json) : bool :=
  match v with Some (JNum z) => Z.eqb z 503 | _ => false end.

(** [typeof err?.message === "string" && p(err.message)] *)
Definition message_test (p : string -> bool) (e : error) : bool :=
  match e.(err_message) with Some (JStr m) => p m | _ => false end.

(** The [is503] classification of the catch block. *)
Definition is503 (e : error) : bool :=
  is_503 e.(err_status) ||
  is_503 e.(err_code) ||
  message_test (fun m => JsString.includes "503" m) e ||
  message_test (fun m => JsString.includes "unavailable" (JsString.toLowerCase m)) e ||
  message_test (fun m => JsString.includes "high demand" (JsString.toLowerCase m)) e.

(** [response.text || "[]"] *)
Definition response_text (t : option string) : string :=
  match t with
  | Some s => if str_truthy s then s else "[]"
  | None => "[]"
  end.

Section Orchestrator.

(** The runtime's [JSON.parse]: [None] when it throws. *)
Variable JSON_parse : string -> option json.
Variable SYSTEM_PROMPT : string.

Definition requestConfig (files : list file) : request :=
  mkRequest "gemini-3-flash-preview"
    (map to_part files ++ [TextPart SYSTEM_PROMPT])
    "application/json" responseSchema.

(** The [for] loop from iteration [attempt] on; [fuel] is
    [MAX_RETRIES - attempt], so [fuel = 0] is the exit of the loop
    (then [throw lastError]).  [service k] is the settlement of the
    [generateContent] call made at attempt [k]. *)
Fixpoint retry_loop (req : request) (service : nat -> outcome)
  (attempt fuel : nat) (lastError : option error) : list event * result :=
  match fuel with
  | O => ([], RThrow lastError)
  | S fuel' =>
      let handle (err : error) : list event * result :=
        if is503 err && Nat.ltb attempt (MAX_RETRIES - 1) then
          let delay := (BASE_DELAY_MS * 2 ^ Z.of_nat attempt)%Z in
          let '(evs, r) := retry_loop req service (S attempt) fuel' (Some err) in
          (ECall req :: EDelay delay :: evs, r)
        else ([ECall req], RThrow (Some err)) in
      match service attempt with
      | Resp text =>
          match JSON_parse (response_text text) with
          | Some v => ([ECall req], RReturn v)
          | None => handle format_error
          end
      | Fail err => handle err
      end
  end.

(** [processCurrentAffairs(files)] with [process.env.GEMINI_API_KEY]
    given as [apiKey]. *)
Definition processCurrentAffairs (apiKey : option string) (files : list file)
  (service : nat -> outcome) : list event * result :=
  match apiKey with
  | Some k =>
      if str_truthy k
      then retry_loop (requestConfig files) service 0 MAX_RETRIES None
      else ([], RThrow (Some config_error))
  | None => ([], RThrow (Some config_error))
  end.

End Orchestrator.

(** Observations on a trace. *)
Fixpoint calls (evs : list event) : nat :=
  match evs with
  | [] => 0
  | ECall _ :: r => S (calls r)
  | EDelay _ :: r => calls r
  end.

Fixpoint delays (evs : list event) : list Z :=
  match evs with
  | [] => []
  | ECall _ :: r => delays r
  | EDelay d :: r => d :: delays r
  end.

Definition total_delay (evs : list event) : Z := fold_right Z.add 0%Z (delays evs).

End Gemini.

(** ** The runtime's [JSON.parse], on the JSON subset with integer numbers
    and without [\u] escapes (inputs outside it are rejected).  The
    orchestrator theorems hold for any parser; this one serves to run them
    on concrete texts. *)
Module JsonParse.

Definition is_ws (c : ascii) : bool :=
  Ascii.eqb c " " || Ascii.eqb c (ascii_of_nat 10) ||
  Ascii.eqb c (ascii_of_nat 13) || Ascii.eqb c (ascii_of_nat 9).

Fixpoint skip_ws (s : string) : string :=
  match s with
  | String c t => if is_ws c then skip_ws t else s
  | EmptyString => s
  end.

Definition digit (c : ascii) : option Z :=
  let n := nat_of_ascii c in
  if (Nat.leb 48 n) && (Nat.leb n 57) then Some (Z.of_nat (n - 48)) else None.

Fixpoint digits (acc : Z) (s : string) : Z * string :=
  match s with
  | String c t =>
      match digit c with
      | Some d => digits (acc * 10 + d)%Z t
      | None => (acc, s)
      end
  | EmptyString => (acc, s)
  end.

(** Unsigned integer: [0] or a non-zero digit followed by digits;
    a fraction or exponent is rejected. *)
Definition unsigned (s : string) : option (Z * string) :=
  let res := match s with
             | String "0" t => Some (0%Z, t)
             | String c t =>
                 match digit c with Some d => Some (digits d t) | None => None end
             | EmptyString => None
             end in
  match res with
  | Some (_, String c _) =>
      if Ascii.eqb c "." || Ascii.eqb c "e" || Ascii.eqb c "E" then None
      else match c with
           | "0"%char | "1"%char | "2"%char | "3"%char | "4"%char
           | "5"%char | "6"%char | "7"%char | "8"%char | "9"%char => None
           | _ => res
           end
  | _ => res
  end.

Definition dquote : ascii := ascii_of_nat 34.
Definition bslash : ascii := ascii_of_nat 92.

Definition escape (c : ascii) : option ascii :=
  if Ascii.eqb c dquote then Some dquote
  else if Ascii.eqb c bslash then Some bslash
  else if Ascii.eqb c "/" then Some "/"%char
  else if Ascii.eqb c "b" then Some (ascii_of_nat 8)
  else if Ascii.eqb c "f" then Some (ascii_of_nat 12)
  else if Ascii.eqb c "n" then Some (ascii_of_nat 10)
  else if Ascii.eqb c "r" then Some (ascii_of_nat 13)
  else if Ascii.eqb c "t" then Some (ascii_of_nat 9)
  else None.

(** Body of a string literal after its opening quote. *)
Fixpoint str_body (s : string) : option (string * string) :=
  match s with
  | EmptyString => None
  | String c t =>
      if Ascii.eqb c dquote then Some (EmptyString, t)
      else if Nat.ltb (nat_of_ascii c) 32 then None
      else if Ascii.eqb c bslash then
        match t with
        | String e t' =>
            match escape e, str_body t' with
            | Some e', Some (b, r) => Some (String e' b, r)
            | _, _ => None
            end
        | EmptyString => None
        end
      else match str_body t with
           | Some (b, r) => Some (String c b, r)
           | None => None
           end
  end.

Definition lit (kw : string) (v : json) (s : string) : option (json * string) :=
  if String.prefix kw s
  then Some (v, substring (String.length kw) (String.length s) s)
  else None.

Fixpoint value (fuel : nat) (s : string) : option (json * string) :=
  match fuel with
  | O => None
  | S f =>
      match skip_ws s with
      | String "["%char t =>
          match skip_ws t with
          | String "]"%char r => Some (JArr [], r)
          | t' => match elems f t' with
                  | Some (xs, r) => Some (JArr xs, r)
                  | None => None
                  end
          end
      | String "{"%char t =>
          match skip_ws t with
          | String "}"%char r => Some (JObj [], r)
          | t' => match members f t' with
                  | Some (fs, r) => Some (JObj fs, r)
                  | None => None
                  end
          end
      | String c t as s' =>
          if Ascii.eqb c dquote then
            match str_body t with Some (b, r) => Some (JStr b, r) | None => None end
          else if Ascii.eqb c "-" then
            match unsigned t with Some (z, r) => Some (JNum (- z), r) | None => None end
          else match digit c with
               | Some _ =>
                   match unsigned s' with Some (z, r) => Some (JNum z, r) | None => None end
               | None =>
                   match lit "null" JNull s' with
                   | Some p => Some p
                   | None => match lit "true" (JBool true) s' with
                             | Some p => Some p
                             | None => lit "false" (JBool false) s'
                             end
                   end
               end
      | EmptyString => None
      end
  end
(** Array elements up to and including the closing bracket. *)
with elems (fuel : nat) (s : string) : option (list json * string) :=
  match fuel with
  | O => None
  | S f =>
      match value f s with
      | Some (v, r) =>
          match skip_ws r with
          | String ","%char r' =>
              match elems f r' with Some (vs, r'') => Some (v :: vs, r'') | None => None end
          | String "]"%char r' => Some ([v], r')
          | _ => None
          end
      | None => None
      end
  end
(** Object members up to and including the closing brace. *)
with members (fuel : nat) (s : string) : option (list (string * json) * string) :=
  match fuel with
  | O => None
  | S f =>
      match skip_ws s with
      | String c t =>
          if Ascii.eqb c dquote then
            match str_body t with
            | Some (k, r) =>
                match skip_ws r with
                | String ":"%char r1 =>
                    match value f r1 with
                    | Some (v, r2) =>
                        match skip_ws r2 with
                        | String ","%char r3 =>
                            match members f r3 with
                            | Some (fs, r4) => Some ((k, v) :: fs, r4)
                            | None => None
                            end
                        | String "}"%char r3 => Some ([(k, v)], r3)
                        | _ => None
                        end
                    | None => None
                    end
                | _ => None
                end
            | None => None
            end
          else None
      | EmptyString => None
      end
  end.

(** [JSON.parse(s)]: [None] where it throws a SyntaxError. *)
Definition json_parse (s : string) : option json :=
  match value (2 * String.length s + 2) s with
  | Some (v, r) => if String.eqb (skip_ws r) "" then Some v else None
  | None => None
  end.

End JsonParse.

(** ** Spec-side vocabulary for the orchestrator claims *)
Module GeminiSpec.
Import Gemini.

(** The delays, in ms, of the spec's schedule "5s, 10s, 20s". *)
Definition backoff_schedule : list Z := [5000; 10000; 20000]%Z.

(** One call per attempt, the given delays between them. *)
Definition retry_trace (req : request) (ds : list Z) : list event :=
  concat (map (fun d => [ECall req; EDelay d]) ds) ++ [ECall req].

(** The declared [responseSchema], as a check on a parsed value:
    an array of objects whose six required fields have the declared types. *)
Definition field (k : string) (fs : list (string * json)) : option json :=
  match find (fun p => String.eqb (fst p) k) (rev fs) with
  | Some (_, v) => Some v
  | None => None
  end.

Definition is_string (v : option json) : bool :=
  match v with Some (JStr _) => true | _ => false end.

Definition is_string_array (v : option json) : bool :=
  match v with
  | Some (JArr xs) => forallb (fun x => match x with JStr _ => true | _ => false end) xs
  | _ => false
  end.

Definition valid_item (v : json) : bool :=
  match v with
  | JObj fs =>
      is_string (field "title" fs) && is_string (field "subTitle" fs) &&
      is_string (field "date" fs) && is_string (field "headline" fs) &&
      is_string_array (field "content" fs) && is_string_array (field "staticGk" fs)
  | _ => false
  end.

Definition valid_schema (v : json) : bool :=
  match v with JArr xs => forallb valid_item xs | _ => false end.

(** The first request sent in a trace. *)
Fixpoint first_request (evs : list event) : option request :=
  match evs with
  | [] => None
  | ECall r :: _ => Some r
  | EDelay _ :: r => first_request r
  end.

(** No comma in a string. *)
Definition no_comma (s : string) : Prop := JsString.includes "," s = false.

End GeminiSpec.

Module GeminiFacts.
Import Gemini GeminiSpec.

Ltac run_loop :=
  unfold processCurrentAffairs, MAX_RETRIES; cbn -[is503];
  repeat match goal with
         | H : ?s ?n = _ |- context [?s ?n] => rewrite H; cbn -[is503]
         | H : is503 ?e = _ |- context [is503 ?e] => rewrite H; cbn -[is503]
         | H : ?p (response_text ?t) = _ |- context [?p (response_text ?t)] =>
             rewrite H; cbn -[is503]
         end.

Lemma is503_format_error : is503 format_error = false.
Proof. reflexivity. Qed.

(** Up to three transient failures, then a response that parses. *)
Lemma success_after_transients parse prompt k files service fs t v :
  str_truthy k = true ->
  length fs <= 3 ->
  Forall (fun e => is503 e = true) fs ->
  (forall i e, nth_error fs i = Some e -> service i = Fail e) ->
  service (length fs) = Resp t ->
  parse (response_text t) = Some v ->
  processCurrentAffairs parse prompt (Some k) files service =
    (retry_trace (requestConfig prompt files) (firstn (length fs) backoff_schedule),
     RReturn v).
Proof.
  intros Hk Hlen Htr Hfail Hok Hparse.
  destruct fs as [|e0 [|e1 [|e2 [|e3 fs]]]]; cbn in Hlen, Hok |- *; try lia;
    repeat match goal with H : Forall _ (_ :: _) |- _ => inversion H; subst; clear H end;
    repeat match goal with
           | H : forall i e, nth_error (?e0 :: _) i = Some e -> _ |- _ =>
               pose proof (H 0 e0 eq_refl);
               try pose proof (H 1 _ eq_refl);
               try pose proof (H 2 _ eq_refl); clear H
           end;
    unfold processCurrentAffairs; rewrite Hk; run_loop; reflexivity.
Qed.

End GeminiFacts.

Module GeminiLoop.
Import Gemini GeminiSpec GeminiFacts.

(** Up to three transient failures, then a response that does not parse. *)
Lemma format_failure_after_transients parse prompt k files service fs t :
  str_truthy k = true ->
  length fs <= 3 ->
  Forall (fun e => is503 e = true) fs ->
  (forall i e, nth_error fs i = Some e -> service i = Fail e) ->
  service (length fs) = Resp t ->
  parse (response_text t) = None ->
  processCurrentAffairs parse prompt (Some k) files service =
    (retry_trace (requestConfig prompt files) (firstn (length fs) backoff_schedule),
     RThrow (Some format_error)).
Proof.
  intros Hk Hlen Htr Hfail Hok Hparse.
  destruct fs as [|e0 [|e1 [|e2 [|e3 fs]]]]; cbn in Hlen, Hok |- *; try lia;
    repeat match goal with H : Forall _ (_ :: _) |- _ => inversion H; subst; clear H end;
    repeat match goal with
           | H : forall i e, nth_error (?e0 :: _) i = Some e -> _ |- _ =>
               pose proof (H 0 e0 eq_refl);
               try pose proof (H 1 _ eq_refl);
               try pose proof (H 2 _ eq_refl); clear H
           end;
    unfold processCurrentAffairs; rewrite Hk; run_loop; reflexivity.
Qed.

Lemma calls_retry_trace req ds : calls (retry_trace req ds) = S (length ds).
Proof.
  unfold retry_trace. induction ds as [|d ds IH]; cbn; [reflexivity|].
  cbn in IH. rewrite IH. reflexivity.
Qed.

(** The delays of the loop from attempt [a] are the first delays of the
    doubling schedule from [a] on. *)
Lemma retry_loop_delays parse req service :
  forall fuel a le, a + fuel = MAX_RETRIES ->
  exists n, n <= 3 - a /\
    delays (fst (retry_loop parse req service a fuel le))
    = map (fun i => BASE_DELAY_MS * 2 ^ Z.of_nat i)%Z (seq a n).
Proof.
  unfold MAX_RETRIES.
  induction fuel as [|fuel IH]; intros a le Ha.
  - exists 0. split; [lia|reflexivity].
  - cbn [retry_loop].
    assert (Hstep : forall err,
      exists n, n <= 3 - a /\
        delays (fst (if is503 err && Nat.ltb a (4 - 1)
                     then let '(evs, r) := retry_loop parse req service (S a) fuel (Some err) in
                          (ECall req :: EDelay (BASE_DELAY_MS * 2 ^ Z.of_nat a)%Z :: evs, r)
                     else ([ECall req], RThrow (Some err))))
        = map (fun i => BASE_DELAY_MS * 2 ^ Z.of_nat i)%Z (seq a n)).
    { intros err. destruct (is503 err && Nat.ltb a (4 - 1)) eqn:E.
      - apply andb_true_iff in E as [_ E]. apply Nat.ltb_lt in E.
        destruct (IH (S a) (Some err) ltac:(lia)) as [n [Hn Hd]].
        destruct (retry_loop parse req service (S a) fuel (Some err)) as [evs r] eqn:Er.
        exists (S n). split; [lia|]. cbn in Hd |- *. rewrite Hd. reflexivity.
      - exists 0. split; [lia|reflexivity]. }
    destruct (service a) as [t|err].
    + destruct (parse (response_text t)); [exists 0; split; [lia|reflexivity]|].
      apply Hstep.
    + apply Hstep.
Qed.

End GeminiLoop.

(** ** Inline payload of an uploaded file *)
Module Payload.
Import Gemini GeminiSpec.

Lemma split_no_comma s : no_comma s -> JsString.split comma s = [s].
Proof.
  unfold no_comma. induction s as [|c s IH]; intros H; [reflexivity|].
  cbn in H |- *. destruct (Ascii.eqb c comma) eqn:E.
  - apply Ascii.eqb_eq in E; rewrite E in H; destruct s; discriminate.
  - apply orb_false_iff in H as [_ H]. rewrite (IH H). reflexivity.
Qed.

Lemma split_app_comma pre rest :
  no_comma pre ->
  JsString.split comma (pre ++ "," ++ rest) = pre :: JsString.split comma rest.
Proof.
  unfold no_comma. induction pre as [|c pre IH]; intros H; [reflexivity|].
  cbn in H, IH |- *. destruct (Ascii.eqb c comma) eqn:E.
  - apply Ascii.eqb_eq in E; rewrite E in H; destruct pre; discriminate.
  - apply orb_false_iff in H as [_ H]. rewrite (IH H). reflexivity.
Qed.

(** What [file.data.split(',')[1] || file.data] selects. *)
Lemma inline_payload_cases :
  (forall d, no_comma d -> inline_payload d = d) /\
  (forall pre seg, no_comma pre -> no_comma seg ->
     inline_payload (pre ++ "," ++ seg) =
     if str_truthy seg then seg else pre ++ "," ++ seg) /\
  (forall pre seg more, no_comma pre -> no_comma seg ->
     inline_payload (pre ++ "," ++ seg ++ "," ++ more) =
     if str_truthy seg then seg else pre ++ "," ++ seg ++ "," ++ more).
Proof.
  split; [|split].
  - intros d H. unfold inline_payload. rewrite (split_no_comma d H). reflexivity.
  - intros pre seg Hp Hs. unfold inline_payload.
    rewrite (split_app_comma pre seg Hp), (split_no_comma seg Hs). reflexivity.
  - intros pre seg more Hp Hs. unfold inline_payload.
    rewrite (split_app_comma pre _ Hp), (split_app_comma seg more Hs). reflexivity.
Qed.

End Payload.

Module GeminiTrace.
Import Gemini.

(** Every attempt of the loop sends the same request. *)
Lemma retry_loop_calls_req parse req service :
  forall fuel a le r,
  In (ECall r) (fst (retry_loop parse req service a fuel le)) -> r = req.
Proof.
  induction fuel as [|fuel IH]; intros a le r Hin; [destruct Hin|].
  cbn [retry_loop] in Hin.
  assert (Hh : forall err,
    In (ECall r) (fst (if is503 err && Nat.ltb a (MAX_RETRIES - 1)
                      then let '(evs, r0) := retry_loop parse req service (S a) fuel (Some err) in
                           (ECall req :: EDelay (BASE_DELAY_MS * 2 ^ Z.of_nat a)%Z :: evs, r0)
                      else ([ECall req], RThrow (Some err)))) -> r = req).
  { intros err H. destruct (is503 err && Nat.ltb a (MAX_RETRIES - 1)).
    - destruct (retry_loop parse req service (S a) fuel (Some err)) as [evs r0] eqn:E.
      cbn in H. destruct H as [H|[H|H]]; try congruence.
      apply (IH (S a) (Some err)). rewrite E. exact H.
    - cbn in H. destruct H as [H|[]]. congruence. }
  destruct (service a) as [t|err].
  - destruct (parse (response_text t)).
    + cbn in Hin. destruct Hin as [H|[]]. congruence.
    + exact (Hh format_error Hin).
  - exact (Hh err Hin).
Qed.

End GeminiTrace.

(** ** Claims on processCurrentAffairs *)
Module GeminiClaims.
Import Gemini GeminiSpec GeminiFacts GeminiLoop.

(** A transient (HTTP 503) error of the Gemini client. *)
Definition e503 : error :=
  mkError "ApiError" (Some (JNum 503)) None (Some (JStr "Service Unavailable")).

(** A non-transient error of the Gemini client. *)
Definition e400 : error :=
  mkError "ApiError" (Some (JNum 400)) None (Some (JStr "Invalid argument")).

(** The service fails transiently [n] times, then answers [t]. *)
Definition svc (n : nat) (t : option string) : nat -> outcome :=
  fun i => if Nat.ltb i n then Fail e503 else Resp t.

Ltac nth_hyp := intros i e H; destruct i as [|[|[|[|i]]]]; cbn in H;
                try discriminate; injection H as <-; reflexivity.

(** C1: after at most three transient failures, a response that parses is
    returned; there are (failures + 1) calls, separated by the delays
    5000, 10000, 20000 ms in this order. *)
Theorem transient_then_success parse prompt k files service fs t v :
  str_truthy k = true ->
  length fs <= 3 ->
  Forall (fun e => is503 e = true) fs ->
  (forall i e, nth_error fs i = Some e -> service i = Fail e) ->
  service (length fs) = Resp t ->
  parse (response_text t) = Some v ->
  let '(evs, r) := processCurrentAffairs parse prompt (Some k) files service in
  r = RReturn v /\ calls evs = S (length fs) /\
  delays evs = firstn (length fs) backoff_schedule /\
  evs = retry_trace (requestConfig prompt files) (firstn (length fs) backoff_schedule).
Proof.
  intros Hk Hlen Htr Hfail Hok Hparse.
  rewrite (success_after_transients parse prompt k files service fs t v
             Hk Hlen Htr Hfail Hok Hparse).
  split; [reflexivity|]. split; [|split; [|reflexivity]].
  - rewrite calls_retry_trace, length_firstn. unfold backoff_schedule. cbn. lia.
  - destruct fs as [|e0 [|e1 [|e2 [|e3 fs]]]]; cbn in Hlen |- *; try lia; reflexivity.
Qed.

Lemma transient_then_success_witness :
  let '(evs, r) := processCurrentAffairs JsonParse.json_parse "" (Some "key") []
                     (svc 2 (Some "[0]")) in
  r = RReturn (JArr [JNum 0]) /\ calls evs = 3 /\
  delays evs = [5000; 10000]%Z /\
  evs = retry_trace (requestConfig "" []) [5000; 10000]%Z.
Proof.
  apply (transient_then_success JsonParse.json_parse "" "key" [] (svc 2 (Some "[0]"))
           [e503; e503] (Some "[0]") (JArr [JNum 0]));
    [reflexivity | cbn; lia | repeat constructor | nth_hyp | reflexivity | reflexivity].
Defined.

(** C2: four transient failures give exactly four calls, the three
    delays between them and none after the fourth, and the fourth error
    is thrown. *)
Theorem four_transients_exhaust parse prompt k files service e0 e1 e2 e3 :
  str_truthy k = true ->
  Forall (fun e => is503 e = true) [e0; e1; e2; e3] ->
  service 0 = Fail e0 -> service 1 = Fail e1 ->
  service 2 = Fail e2 -> service 3 = Fail e3 ->
  let '(evs, r) := processCurrentAffairs parse prompt (Some k) files service in
  r = RThrow (Some e3) /\ calls evs = 4 /\
  evs = retry_trace (requestConfig prompt files) backoff_schedule.
Proof.
  intros Hk Htr H0 H1 H2 H3.
  repeat match goal with H : Forall _ (_ :: _) |- _ => inversion H; subst; clear H end.
  unfold processCurrentAffairs; rewrite Hk. run_loop.
  split; [reflexivity|split; reflexivity].
Qed.

Lemma four_transients_exhaust_witness :
  let '(evs, r) := processCurrentAffairs JsonParse.json_parse "" (Some "key") []
                     (svc 4 (Some "[0]")) in
  r = RThrow (Some e503) /\ calls evs = 4 /\
  evs = retry_trace (requestConfig "" []) backoff_schedule.
Proof.
  apply (four_transients_exhaust JsonParse.json_parse "" "key" [] (svc 4 (Some "[0]"))
           e503 e503 e503 e503);
    [reflexivity | repeat constructor | reflexivity | reflexivity
    | reflexivity | reflexivity].
Defined.

(** C3 (as stated, refuted): four transient failures make the backoff
    delays sum to 35000 ms, more than 15 seconds. *)
Lemma backoff_total_exceeds_15s :
  total_delay (fst (processCurrentAffairs JsonParse.json_parse "" (Some "key") []
                      (svc 4 None))) = 35000%Z /\
  ~ (total_delay (fst (processCurrentAffairs JsonParse.json_parse "" (Some "key") []
                        (svc 4 None))) <= 15000)%Z.
Proof. split; [reflexivity | cbn; lia]. Qed.

(** C3 (amended): in every run the backoff delays sum to at most
    35000 ms (5 s + 10 s + 20 s), and the sum is exactly 35000 ms when,
    with a key, the first three attempts all fail transiently. *)
Theorem backoff_total_at_most_35s parse prompt apiKey files service :
  (0 <= total_delay (fst (processCurrentAffairs parse prompt apiKey files service)) <= 35000)%Z /\
  (forall k e0 e1 e2, apiKey = Some k -> str_truthy k = true ->
   service 0 = Fail e0 -> service 1 = Fail e1 -> service 2 = Fail e2 ->
   is503 e0 = true -> is503 e1 = true -> is503 e2 = true ->
   total_delay (fst (processCurrentAffairs parse prompt apiKey files service)) = 35000%Z).
Proof.
  split.
  - unfold processCurrentAffairs.
    destruct apiKey as [k|]; [destruct (str_truthy k)|]; [|cbn; lia|cbn; lia].
    destruct (retry_loop_delays parse (requestConfig prompt files) service
                MAX_RETRIES 0 None eq_refl) as [n [Hn Hd]].
    unfold total_delay. rewrite Hd.
    destruct n as [|[|[|[|n]]]]; cbn; lia.
  - intros k e0 e1 e2 -> Hk H0 H1 H2 T0 T1 T2.
    unfold processCurrentAffairs. rewrite Hk. unfold MAX_RETRIES. cbn -[is503].
    rewrite H0, T0. cbn -[is503]. rewrite H1, T1. cbn -[is503]. rewrite H2, T2. cbn -[is503].
    destruct (service 3) as [t|e3]; [destruct (parse (response_text t))|]; cbn -[is503];
      rewrite ?andb_false_r; reflexivity.
Qed.

(** C4: a non-transient error on the first attempt is thrown at once:
    one call, no delay. *)
Theorem nontransient_first_error parse prompt k files service e :
  str_truthy k = true ->
  is503 e = false ->
  service 0 = Fail e ->
  processCurrentAffairs parse prompt (Some k) files service
  = ([ECall (requestConfig prompt files)], RThrow (Some e)).
Proof.
  intros Hk He H0. unfold processCurrentAffairs; rewrite Hk. run_loop. reflexivity.
Qed.

Lemma nontransient_first_error_witness :
  is503 e400 = false /\
  processCurrentAffairs JsonParse.json_parse "" (Some "key") [] (fun _ => Fail e400)
  = ([ECall (requestConfig "" [])], RThrow (Some e400)).
Proof.
  split; [reflexivity|].
  apply (nontransient_first_error JsonParse.json_parse "" "key" [] (fun _ => Fail e400) e400);
    reflexivity.
Defined.

(** C5 (as stated, refuted): the body [{}] violates the declared schema
    (it is not an array) and is returned, not turned into an error. *)
Lemma schema_violation_returned :
  valid_schema (JObj []) = false /\
  processCurrentAffairs JsonParse.json_parse "" (Some "key") [] (fun _ => Resp (Some "{}"))
  = ([ECall (requestConfig "" [])], RReturn (JObj [])).
Proof. split; reflexivity. Qed.

(** C5 (amended): after up to three transient failures, a response whose
    text (["[]"] when empty or absent) [JSON.parse] rejects makes the call
    throw the fixed [format_error], with no retry; a text that parses is
    returned as it is, whether or not it fits the declared schema. *)
Theorem response_parse_outcome parse prompt k files service fs t :
  str_truthy k = true ->
  length fs <= 3 ->
  Forall (fun e => is503 e = true) fs ->
  (forall i e, nth_error fs i = Some e -> service i = Fail e) ->
  service (length fs) = Resp t ->
  processCurrentAffairs parse prompt (Some k) files service =
    (retry_trace (requestConfig prompt files) (firstn (length fs) backoff_schedule),
     match parse (response_text t) with
     | Some v => RReturn v
     | None => RThrow (Some format_error)
     end).
Proof.
  intros Hk Hlen Htr Hfail Hok.
  destruct (parse (response_text t)) as [v|] eqn:Hp.
  - exact (success_after_transients parse prompt k files service fs t v
             Hk Hlen Htr Hfail Hok Hp).
  - exact (format_failure_after_transients parse prompt k files service fs t
             Hk Hlen Htr Hfail Hok Hp).
Qed.

Lemma response_parse_outcome_witness :
  processCurrentAffairs JsonParse.json_parse "" (Some "key") [] (svc 1 (Some "[0,"))
  = (retry_trace (requestConfig "" []) [5000%Z], RThrow (Some format_error)).
Proof.
  apply (response_parse_outcome JsonParse.json_parse "" "key" [] (svc 1 (Some "[0,"))
           [e503] (Some "[0,"));
    [reflexivity | cbn; lia | repeat constructor | nth_hyp | reflexivity].
Defined.

(** C6: a response that parses to an empty array is a normal return of
    the empty array (also after transient failures). *)
Theorem empty_array_success parse prompt k files service fs t :
  str_truthy k = true ->
  length fs <= 3 ->
  Forall (fun e => is503 e = true) fs ->
  (forall i e, nth_error fs i = Some e -> service i = Fail e) ->
  service (length fs) = Resp t ->
  parse (response_text t) = Some (JArr []) ->
  snd (processCurrentAffairs parse prompt (Some k) files service) = RReturn (JArr []).
Proof.
  intros Hk Hlen Htr Hfail Hok Hp.
  rewrite (success_after_transients parse prompt k files service fs t (JArr [])
             Hk Hlen Htr Hfail Hok Hp).
  reflexivity.
Qed.

Lemma empty_array_success_witness :
  snd (processCurrentAffairs JsonParse.json_parse "" (Some "key") [] (fun _ => Resp None))
  = RReturn (JArr []).
Proof.
  apply (empty_array_success JsonParse.json_parse "" "key" [] (fun _ => Resp None) [] None);
    [reflexivity | cbn; lia | constructor | nth_hyp | reflexivity | reflexivity].
Defined.

(** C10 (as stated, refuted): for a data string with two commas the
    payload sent is the text between them, not all the text after the
    first comma. *)
Lemma payload_two_commas :
  option_map req_parts
    (first_request (fst (processCurrentAffairs JsonParse.json_parse "" (Some "key")
                           [mkFile "data:application/pdf;base64,QUJD,REVG" "application/pdf"]
                           (fun _ => Resp None))))
  = Some [InlineData "QUJD" "application/pdf"; TextPart ""].
Proof. reflexivity. Qed.

(** C10 (amended): every request carries one inline part per file, with
    [file.data.split(',')[1] || file.data] as payload: the whole string
    when it has no comma, else the text between the first and the second
    comma (or the end) when that text is non-empty, else the whole string. *)
Theorem inline_payload_sent parse prompt apiKey files service :
  (forall r, In (ECall r) (fst (processCurrentAffairs parse prompt apiKey files service)) ->
     req_parts r = (map (fun f => InlineData (inline_payload (data f)) (mimeType f)) files
                    ++ [TextPart prompt])%list) /\
  (forall d, no_comma d -> inline_payload d = d) /\
  (forall pre seg, no_comma pre -> no_comma seg ->
     inline_payload (pre ++ "," ++ seg) =
     if str_truthy seg then seg else pre ++ "," ++ seg) /\
  (forall pre seg more, no_comma pre -> no_comma seg ->
     inline_payload (pre ++ "," ++ seg ++ "," ++ more) =
     if str_truthy seg then seg else pre ++ "," ++ seg ++ "," ++ more).
Proof.
  split; [|exact Payload.inline_payload_cases].
  intros r Hin. unfold processCurrentAffairs in Hin.
  destruct apiKey as [k|]; [destruct (str_truthy k)|];
    [|cbn in Hin; contradiction|cbn in Hin; contradiction].
  apply GeminiTrace.retry_loop_calls_req in Hin. subst r. reflexivity.
Qed.

End GeminiClaims.

(** ** JS string conversion (as used by [Array.prototype.join]) *)
Module JsConv.

Definition digit_char (n : N) : ascii := ascii_of_N (48 + n).

Fixpoint N_digits (fuel : nat) (n : N) (acc : string) : string :=
  match fuel with
  | O => acc
  | S f =>
      if N.eqb n 0 then acc
      else N_digits f (N.div n 10) (String (digit_char (N.modulo n 10)) acc)
  end.

(** Decimal form of an integer. *)
Definition Z_to_string (z : Z) : string :=
  match z with
  | Z0 => "0"
  | Zpos p => N_digits (Pos.to_nat p) (Npos p) ""
  | Zneg p => "-" ++ N_digits (Pos.to_nat p) (Npos p) ""
  end.

(** [String(v)] for an element of an array being joined
    ([null] and [undefined] elements become [""]). *)
Fixpoint join_elem (v : json) : string :=
  match v with
  | JNull => ""
  | JBool b => if b then "true" else "false"
  | JNum z => Z_to_string z
  | JStr s => s
  | JArr xs =>
      JsString.join "," ((fix go (xs : list json) : list string :=
                            match xs with [] => [] | x :: r => join_elem x :: go r end) xs)
  | JObj _ => "[object Object]"
  end.

(** [xs.join(sep)] on an array of JSON values. *)
Definition join_values (sep : string) (xs : list json) : string :=
  JsString.join sep (map join_elem xs).

End JsConv.

(** ** server.ts: POST /api/sheets/update *)
Module Server.

(** [req.session]; [tokens] is the stored OAuth credential object. *)
Record session := mkSession { tokens : option json }.

(** A cell of [values]: [None] is undefined. *)
Definition cell := option json.

(** The network effect of the route: [sheets.spreadsheets.values.append]. *)
Inductive sheets_event :=
| EAppend (spreadsheetId range valueInputOption : string) (values : list (list cell)).

(** Settlement of the [append] promise: [AppendFail m] rejects with an
    error whose [message] is [m]. *)
Inductive append_outcome :=
| AppendOk
| AppendFail (message : option json).

Record response := mkResponse { status : Z; body : json }.

Definition error_response (code : Z) (msg : string) : response :=
  mkResponse code (JObj [("error", JStr msg)]).

(** [item.k] on a JSON value; [inl] is the TypeError of reading a
    property of [null]. *)
Definition get (item : json) (k : string) : string + option json :=
  match item with
  | JNull => inl ("Cannot read properties of null (reading '" ++ k ++ "')")
  | JObj fs =>
      inr (match find (fun p => String.eqb (fst p) k) (rev fs) with
           | Some (_, v) => Some v
           | None => None
           end)
  | _ => inr None
  end.

(** The callback of [data.map]: one row of six cells. *)
Definition row (item : json) : string + list cell :=
  match get item "title", get item "subTitle", get item "date",
        get item "headline", get item "content", get item "staticGk" with
  | inr t, inr st, inr d, inr h, inr c, inr g =>
      inr [t; st; d; h;
           match c with
           | Some (JArr xs) => Some (JStr (JsConv.join_values (String "010" "") xs))
           | _ => c
           end;
           match g with
           | Some (JArr ((_ :: _) as xs)) =>
               Some (JStr (JsConv.join_values (String "010" "") xs))
           | _ => Some (JStr "Not applicable")
           end]
  | inl e, _, _, _, _, _ | _, inl e, _, _, _, _ | _, _, inl e, _, _, _
  | _, _, _, inl e, _, _ | _, _, _, _, inl e, _ | _, _, _, _, _, inl e => inl e
  end.

Fixpoint map_rows (items : list json) : string + list (list cell) :=
  match items with
  | [] => inr []
  | it :: r =>
      match row it with
      | inl e => inl e
      | inr x => match map_rows r with inl e => inl e | inr xs => inr (x :: xs) end
      end
  end.

(** [data.map(...)]: a TypeError unless [data] is an array. *)
Definition values_of (data : json) : string + list (list cell) :=
  match data with
  | JArr items => map_rows items
  | _ => inl "data.map is not a function"
  end.

(** The route handler.  [sess] is [req.session], [spreadsheetId] is
    [process.env.SPREADSHEET_ID], [data] is [req.body.data], [append] the
    settlement of the Sheets API call. *)
Definition sheets_update (sess : option session) (spreadsheetId : option string)
  (data : option json) (append : append_outcome) : list sheets_event * response :=
  match sess with
  | Some s =>
      if negb (truthy s.(tokens)) then ([], error_response 401 "Unauthorized")
      else
        match spreadsheetId with
        | Some sid =>
            if negb (str_truthy sid) then
              ([], error_response 500 "SPREADSHEET_ID is not configured on server")
            else if negb (truthy data) then ([], error_response 400 "Missing data")
            else
              match data with
              | Some d =>
                  match values_of d with
                  | inl msg => ([], error_response 500 msg)
                  | inr values =>
                      ([EAppend sid "Current Affairs!A:F" "USER_ENTERED" values],
                       match append with
                       | AppendOk => mkResponse 200 (JObj [("success", JBool true)])
                       | AppendFail m =>
                           if truthy m then
                             match m with
                             | Some v => mkResponse 500 (JObj [("error", v)])
                             | None => error_response 500 "Failed to update sheet"
                             end
                           else error_response 500 "Failed to update sheet"
                       end)
                  end
              | None => ([], error_response 400 "Missing data")
              end
        | None => ([], error_response 500 "SPREADSHEET_ID is not configured on server")
        end
  | None => ([], error_response 401 "Unauthorized")
  end.

(** The body the client sends for a NewsItem ([JSON.stringify] then
    [express.json]). *)
Definition item_to_json (it : NewsItem) : json :=
  JObj [("title", JStr it.(title)); ("subTitle", JStr it.(subTitle));
        ("date", JStr it.(date)); ("headline", JStr it.(headline));
        ("content", JArr (map JStr it.(content)));
        ("staticGk", JArr (map JStr it.(staticGk)))].

(** The spec's row: section, subsection, date, headline, body points
    joined by newline, background facts joined by newline or the literal
    "Not applicable". *)
Definition spec_row (it : NewsItem) : list cell :=
  [Some (JStr it.(title)); Some (JStr it.(subTitle)); Some (JStr it.(date));
   Some (JStr it.(headline));
   Some (JStr (String.concat (String "010" "") it.(content)));
   Some (JStr (match it.(staticGk) with
               | [] => "Not applicable"
               | gk => String.concat (String "010" "") gk
               end))].

End Server.

Module ServerClaims.
Import Server.

Lemma join_values_strings sep xs :
  JsConv.join_values sep (map JStr xs) = String.concat sep xs.
Proof.
  unfold JsConv.join_values. rewrite map_map. cbn.
  induction xs as [|x xs IH]; [reflexivity|].
  destruct xs as [|y ys]; [reflexivity|].
  cbn in IH |- *. rewrite IH. reflexivity.
Qed.

Lemma row_item_to_json it : row (item_to_json it) = inr (spec_row it).
Proof.
  destruct it as [t st d h c g]. unfold row, item_to_json, spec_row. cbn -[JsConv.join_values].
  rewrite !join_values_strings. destruct g; reflexivity.
Qed.

Lemma map_rows_items items :
  map_rows (map item_to_json items) = inr (map spec_row items).
Proof.
  induction items as [|it items IH]; [reflexivity|].
  cbn [map map_rows]. rewrite row_item_to_json, IH. reflexivity.
Qed.

(** C7: with a session holding tokens, every append the route issues for
    a NewsItem list carries one six-cell row per item, in the spec's
    column order; with SPREADSHEET_ID configured it issues exactly one. *)
Theorem sheets_rows_per_item tok spreadsheetId items append :
  truthy (Some tok) = true ->
  let '(evs, _) := sheets_update (Some (mkSession (Some tok))) spreadsheetId
                     (Some (JArr (map item_to_json items))) append in
  (forall sid range opt values, In (EAppend sid range opt values) evs ->
     range = "Current Affairs!A:F" /\ values = map spec_row items) /\
  (forall sid, spreadsheetId = Some sid -> str_truthy sid = true ->
     evs = [EAppend sid "Current Affairs!A:F" "USER_ENTERED" (map spec_row items)]).
Proof.
  intros Htok. unfold sheets_update. cbn [tokens]. rewrite Htok. cbn [negb].
  destruct spreadsheetId as [sid|]; [destruct (str_truthy sid) eqn:Hs|].
  - cbn [negb truthy values_of]. rewrite map_rows_items.
    split.
    + intros sid' range opt values [H|[]]. injection H as <- <- <- <-. split; reflexivity.
    + intros sid' H _. injection H as <-. reflexivity.
  - cbn. split; [intros ? ? ? ? []|intros sid' H Ht; injection H as <-; congruence].
  - cbn. split; [intros ? ? ? ? []|intros sid' H; discriminate].
Qed.

Lemma sheets_rows_per_item_witness :
  let '(evs, _) :=
    sheets_update (Some (mkSession (Some (JObj [("access_token", JStr "t")]))))
      (Some "sheet-1")
      (Some (JArr (map item_to_json
                       [mkNewsItem "DEFENCE" "Missiles" "18 February 2026" "H"
                          ["a"; "b"] []])))
      AppendOk in
  (forall sid range opt values, In (EAppend sid range opt values) evs ->
     range = "Current Affairs!A:F" /\
     values = map spec_row [mkNewsItem "DEFENCE" "Missiles" "18 February 2026" "H"
                              ["a"; "b"] []]) /\
  (forall sid, Some "sheet-1" = Some sid -> str_truthy sid = true ->
     evs = [EAppend sid "Current Affairs!A:F" "USER_ENTERED"
              (map spec_row [mkNewsItem "DEFENCE" "Missiles" "18 February 2026" "H"
                               ["a"; "b"] []])]).
Proof.
  apply (sheets_rows_per_item (JObj [("access_token", JStr "t")]) (Some "sheet-1")
           [mkNewsItem "DEFENCE" "Missiles" "18 February 2026" "H" ["a"; "b"] []]
           AppendOk).
  reflexivity.
Defined.

(** C8: without a session holding tokens the route answers 401
    Unauthorized and makes no call to the Sheets API. *)
Theorem sheets_requires_session sess spreadsheetId data append :
  (sess = None \/ exists s, sess = Some s /\ truthy s.(tokens) = false) ->
  sheets_update sess spreadsheetId data append
  = ([], error_response 401 "Unauthorized").
Proof.
  intros [-> | [s [-> Ht]]]; [reflexivity|].
  unfold sheets_update. rewrite Ht. reflexivity.
Qed.

Lemma sheets_requires_session_witness :
  sheets_update (Some (mkSession None)) (Some "sheet-1") (Some (JArr [])) AppendOk
  = ([], error_response 401 "Unauthorized").
Proof.
  apply sheets_requires_session. right. exists (mkSession None). split; reflexivity.
Defined.

End ServerClaims.

(** ** The React component: handleDownloadHtml and handleDownloadExcel *)
Module Export_.

Definition dquote : ascii := ascii_of_nat 34.

(** The template texts below are the source's, with each double quote
    written as a backquote (the templates contain no backquote). *)
Fixpoint unq (s : string) : string :=
  match s with
  | EmptyString => EmptyString
  | String c t => String (if Ascii.eqb c "`"%char then dquote else c) (unq t)
  end.

(** Text of the per-item template, piece 0. *)
Definition item_tpl_0 : string :=
  unq "
        <div class=`news-item`>
            <h2>".

(** Text of the per-item template, piece 1. *)
Definition item_tpl_1 : string :=
  unq " – ".

(** Text of the per-item template, piece 2. *)
Definition item_tpl_2 : string :=
  unq "</h2>
            <div class=`meta` style=`text-align: left; margin-bottom: 16px;`>Date: ".

(** Text of the per-item template, piece 3. *)
Definition item_tpl_3 : string :=
  unq "</div>
            <p><strong>".

(** Text of the per-item template, piece 4. *)
Definition item_tpl_4 : string :=
  unq "</strong></p>
            <ul>
                ".

(** Text of the per-item template, piece 5. *)
Definition item_tpl_5 : string :=
  unq "
            </ul>
            <div class=`static-gk`>
                <strong>Static GK:</strong>
                ".

(** Text of the per-item template, piece 6. *)
Definition item_tpl_6 : string :=
  unq "
            </div>
        </div>
        <hr style=`border: 0; border-top: 1px dashed #e7e5e4; margin: 40px 0;`>
    ".

(** Text of the page template, piece 0. *)
Definition page_tpl_0 : string :=
  unq "
<!DOCTYPE html>
<html lang=`en`>
<head>
    <meta charset=`UTF-8`>
    <meta name=`viewport` content=`width=device-width, initial-scale=1.0`>
    <title>Daily Digest - ".

(** Text of the page template, piece 1. *)
Definition page_tpl_1 : string :=
  unq "</title>
    <link href=`https://fonts.googleapis.com/css2?family=Cormorant+Garamond:ital,wght@0,300;0,400;0,500;0,600;0,700;1,300;1,400;1,500;1,600;1,700&family=Inter:wght@100..900&family=JetBrains+Mono:ital,wght@0,100..800;1,100..800&display=swap` rel=`stylesheet`>
    <style>
        body {
            font-family: `Inter`, sans-serif;
            background-color: #f5f5f0;
            color: #1c1917;
            margin: 0;
            padding: 40px 20px;
            line-height: 1.6;
        }
        .container {
            max-width: 800px;
            margin: 0 auto;
            background: white;
            padding: 60px;
            box-shadow: 0 25px 50px -12px rgba(0, 0, 0, 0.1);
            min-height: 297mm;
        }
        header {
            border-bottom: 4px solid #1c1917;
            padding-bottom: 32px;
            margin-bottom: 48px;
            display: flex;
            justify-content: space-between;
            align-items: flex-end;
        }
        h1 {
            font-family: `Cormorant Garamond`, serif;
            font-size: 48px;
            font-weight: 900;
            text-transform: uppercase;
            letter-spacing: -0.05em;
            margin: 0;
            line-height: 0.9;
        }
        .subtitle {
            font-family: `Cormorant Garamond`, serif;
            font-style: italic;
            font-size: 18px;
            color: #57534e;
            margin-top: 8px;
        }
        .meta {
            text-align: right;
            font-family: `JetBrains Mono`, monospace;
            font-size: 12px;
            color: #a8a29e;
            text-transform: uppercase;
            letter-spacing: 0.1em;
        }
        .content {
            font-family: `Inter`, sans-serif;
        }
        .content h2 {
            font-family: `Cormorant Garamond`, serif;
            font-weight: bold;
            color: #1c1917;
            margin-bottom: 16px;
            margin-top: 32px;
            border-bottom: 1px solid #f5f5f4;
            padding-bottom: 8px;
        }
        .content p {
            margin-bottom: 16px;
            color: #292524;
        }
        .content ul {
            list-style: none;
            padding-left: 0;
            margin-bottom: 24px;
        }
        .content li {
            position: relative;
            padding-left: 24px;
            margin-bottom: 8px;
            color: #44403c;
        }
        .content li::before {
            content: `•`;
            position: absolute;
            left: 0;
            color: #a8a29e;
            font-weight: bold;
        }
        .static-gk {
            background: #f9f8f6;
            padding: 16px;
            border-radius: 8px;
            margin-top: 16px;
        }
        footer {
            margin-top: 80px;
            padding-top: 32px;
            border-top: 1px solid #e7e5e4;
            text-align: center;
            font-family: `Cormorant Garamond`, serif;
            font-style: italic;
            color: #a8a29e;
        }
        @media print {
            body { background: white; padding: 0; }
            .container { box-shadow: none; padding: 0; width: 100%; }
        }
    </style>
</head>
<body>
    <div class=`container`>
        <header>
            <div>
                <h1>The Daily Digest</h1>
                <div class=`subtitle`>Curated Current Affairs for Competitive Excellence</div>
            </div>
            <div class=`meta`>
                Edition: ".

(** Text of the page template, piece 2. *)
Definition page_tpl_2 : string :=
  unq "
            </div>
        </header>
        <div class=`content`>
            ".

(** Text of the page template, piece 3. *)
Definition page_tpl_3 : string :=
  unq "
        </div>
        <footer>
            End of Daily Digest. Success follows consistency.
        </footer>
    </div>
</body>
</html>
    ".

(** [`<li>${x}</li>`] *)
Definition li (x : string) : string := "<li>" ++ x ++ "</li>".

(** The [result.map(item => `...`)] callback. *)
Definition item_html (it : NewsItem) : string :=
  item_tpl_0 ++ it.(title) ++ item_tpl_1 ++ it.(subTitle) ++ item_tpl_2 ++
  it.(date) ++ item_tpl_3 ++ it.(headline) ++ item_tpl_4 ++
  JsString.join "" (map li it.(content)) ++ item_tpl_5 ++
  (if Nat.ltb 0 (length it.(staticGk))
   then "<ul>" ++ JsString.join "" (map li it.(staticGk)) ++ "</ul>"
   else "Not applicable") ++ item_tpl_6.

(** [contentHtml] *)
Definition contentHtml (items : list NewsItem) : string :=
  JsString.join "" (map item_html items).

(** [htmlContent] *)
Definition htmlContent (dateStr : string) (items : list NewsItem) : string :=
  page_tpl_0 ++ dateStr ++ page_tpl_1 ++ dateStr ++ page_tpl_2 ++
  contentHtml items ++ page_tpl_3.

(** [excel row object]: the keys and values of [result.map(item => ({...}))]. *)
Definition excel_row (it : NewsItem) : list (string * string) :=
  [("Section", it.(title)); ("Sub-Section", it.(subTitle)); ("Date", it.(date));
   ("Headline", it.(headline));
   ("Content", JsString.join (String "010" "") it.(content));
   ("Static GK", if Nat.ltb 0 (length it.(staticGk))
                 then JsString.join (String "010" "") it.(staticGk)
                 else "Not applicable")].

(** The workbook handed to [XLSX.writeFile]: the sheet built by
    [json_to_sheet] from the row objects, its name and column widths. *)
Record workbook := mkWorkbook {
  sheet_name : string;
  sheet_rows : list (list (string * string));
  sheet_cols : list Z
}.

Section Exports.

(** A [Date] value and the two formatting methods the exports call:
    [toLocaleDateString('en-GB', ...)] and [toISOString()]. *)
Variable date_t : Type.
Variable toLocaleDateString_enGB : date_t -> string.
Variable toISOString : date_t -> string.

(** [new Date().toISOString().split('T')[0]] *)
Definition iso_day (now : date_t) : string :=
  hd "" (JsString.split "T" (toISOString now)).

(** [handleDownloadHtml]: [result] is the component state; [now1] and
    [now2] are the two [new Date()] readings.  [Some (fileName, htmlContent)]
    is the downloaded file. *)
Definition handleDownloadHtml (result : option (list NewsItem)) (now1 now2 : date_t)
  : option (string * string) :=
  match result with
  | None => None
  | Some items =>
      let dateStr := toLocaleDateString_enGB now1 in
      let fileName := "Daily_Digest_" ++ iso_day now2 ++ ".html" in
      Some (fileName, htmlContent dateStr items)
  end.

(** [handleDownloadExcel] *)
Definition handleDownloadExcel (result : option (list NewsItem)) (now : date_t)
  : option (string * workbook) :=
  match result with
  | None => None
  | Some items =>
      let wb := mkWorkbook "Current Affairs" (map excel_row items)
                  [30; 30; 20; 40; 60; 40]%Z in
      Some ("Daily_Digest_" ++ iso_day now ++ ".xlsx", wb)
  end.

End Exports.

End Export_.

Module ExportClaims.
Import Export_.

(** C9: for a fixed NewsItem list the exports depend on the clock only
    through the date stamps: the HTML text is fixed text around two
    copies of the [toLocaleDateString] stamp, the workbook does not
    depend on the clock, and the file names differ only by the ISO day;
    so two runs with the same stamps give identical outputs. *)
Theorem exports_differ_only_by_date (date_t : Type)
    (toLocale : date_t -> string) (toISO : date_t -> string) (items : list NewsItem) :
  (exists A B C, forall now1 now2,
     handleDownloadHtml date_t toLocale toISO (Some items) now1 now2
     = Some ("Daily_Digest_" ++ iso_day date_t toISO now2 ++ ".html",
             A ++ toLocale now1 ++ B ++ toLocale now1 ++ C)) /\
  (exists wb, forall now,
     handleDownloadExcel date_t toISO (Some items) now
     = Some ("Daily_Digest_" ++ iso_day date_t toISO now ++ ".xlsx", wb)) /\
  (forall now1 now2 now1' now2',
     toLocale now1 = toLocale now1' -> toISO now2 = toISO now2' ->
     handleDownloadHtml date_t toLocale toISO (Some items) now1 now2
     = handleDownloadHtml date_t toLocale toISO (Some items) now1' now2' /\
     handleDownloadExcel date_t toISO (Some items) now2
     = handleDownloadExcel date_t toISO (Some items) now2').
Proof.
  split; [|split].
  - exists page_tpl_0, page_tpl_1, (page_tpl_2 ++ contentHtml items ++ page_tpl_3).
    intros now1 now2. reflexivity.
  - eexists. intros now. reflexivity.
  - intros now1 now2 now1' now2' H1 H2.
    unfold handleDownloadHtml, handleDownloadExcel, iso_day.
    rewrite H1, H2. split; reflexivity.
Qed.

End ExportClaims.

(** ** Further properties of processCurrentAffairs *)
Module GeminiExtra.
Import Gemini GeminiSpec GeminiFacts GeminiLoop.

(** What every run of the loop from attempt [a] satisfies: one more call
    than delays, the delays are the doubling schedule from [a], and a
    thrown value is the format error or an error of the service at one of
    the attempts, a transient one only once the attempts are used up. *)
Definition loop_inv (service : nat -> outcome) (a : nat) (p : list event * result) : Prop :=
  let '(evs, r) := p in
  calls evs = S (length (delays evs)) /\
  delays evs = map (fun i => BASE_DELAY_MS * 2 ^ Z.of_nat i)%Z (seq a (length (delays evs))) /\
  length (delays evs) <= 3 - a /\
  match r with
  | RReturn _ => True
  | RThrow eo =>
      exists e, eo = Some e /\
        (e = format_error \/ exists i, a <= i < 4 /\ service i = Fail e) /\
        (is503 e = true -> length (delays evs) = 3 - a)
  end.

Lemma retry_loop_inv parse req service :
  forall fuel a le, a + fuel = MAX_RETRIES -> 1 <= fuel ->
  loop_inv service a (retry_loop parse req service a fuel le).
Proof.
  unfold MAX_RETRIES.
  induction fuel as [|fuel IH]; intros a le Ha Hf; [lia|].
  cbn [retry_loop].
  assert (Hstep : forall err,
    (err = format_error \/ exists i, a <= i < 4 /\ service i = Fail err) ->
    loop_inv service a
      (if is503 err && Nat.ltb a (4 - 1)
       then let '(evs, r) := retry_loop parse req service (S a) fuel (Some err) in
            (ECall req :: EDelay (BASE_DELAY_MS * 2 ^ Z.of_nat a)%Z :: evs, r)
       else ([ECall req], RThrow (Some err)))).
  { intros err Horig. destruct (is503 err && Nat.ltb a (4 - 1)) eqn:E.
    - apply andb_true_iff in E as [_ E]. apply Nat.ltb_lt in E.
      pose proof (IH (S a) (Some err) ltac:(lia) ltac:(lia)) as Hi.
      destruct (retry_loop parse req service (S a) fuel (Some err)) as [evs r].
      unfold loop_inv in Hi |- *. cbn [delays calls length] in Hi |- *. destruct Hi as [Hc [Hd [Hl Hr]]].
      split; [rewrite Hc; reflexivity|].
      split; [rewrite Hd at 1; reflexivity|].
      split; [lia|].
      destruct r as [v|eo]; [exact I|].
      destruct Hr as [e [He [Ho H5]]]. exists e. split; [exact He|]. split.
      + destruct Ho as [Ho|[i [Hi' Hs]]]; [left; exact Ho|right; exists i; split; [lia|exact Hs]].
      + intros H. specialize (H5 H). lia.
    - unfold loop_inv; cbn [delays calls length]. split; [reflexivity|]. split; [reflexivity|]. split; [lia|].
      exists err. split; [reflexivity|]. split; [exact Horig|].
      intros H5. rewrite H5 in E. cbn [andb] in E. apply Nat.ltb_ge in E. lia. }
  destruct (service a) as [t|err] eqn:Hs.
  - destruct (parse (response_text t)).
    + unfold loop_inv; cbn [delays calls length]. split; [reflexivity|]. split; [reflexivity|]. split; [lia|exact I].
    + apply Hstep. left. reflexivity.
  - apply Hstep. right. exists a. split; [lia|exact Hs].
Qed.

Lemma process_inv parse prompt k files service :
  str_truthy k = true ->
  loop_inv service 0 (processCurrentAffairs parse prompt (Some k) files service).
Proof.
  intros Hk. unfold processCurrentAffairs. rewrite Hk.
  apply retry_loop_inv; [reflexivity | unfold MAX_RETRIES; lia].
Qed.

Lemma schedule_prefix n :
  n <= 3 ->
  map (fun i => BASE_DELAY_MS * 2 ^ Z.of_nat i)%Z (seq 0 n) = firstn n backoff_schedule.
Proof. intros H. destruct n as [|[|[|[|n]]]]; try lia; reflexivity. Qed.

(** Without a configured key (absent or empty [GEMINI_API_KEY]) the call
    throws the configuration error and never contacts the service. *)
Theorem missing_api_key parse prompt apiKey files service :
  (apiKey = None \/ apiKey = Some "") ->
  processCurrentAffairs parse prompt apiKey files service = ([], RThrow (Some config_error)).
Proof. intros [-> | ->]; reflexivity. Qed.

Lemma missing_api_key_witness :
  processCurrentAffairs JsonParse.json_parse "" (Some "") [] (fun _ => Resp None)
  = ([], RThrow (Some config_error)).
Proof. apply missing_api_key. right. reflexivity. Defined.

(** With a key, every run makes between one and four calls, one more
    than the delays between them, and the delays are always a prefix of
    5000, 10000, 20000 ms. *)
Theorem run_shape parse prompt k files service :
  str_truthy k = true ->
  let evs := fst (processCurrentAffairs parse prompt (Some k) files service) in
  1 <= calls evs <= 4 /\
  calls evs = S (length (delays evs)) /\
  delays evs = firstn (length (delays evs)) backoff_schedule.
Proof.
  intros Hk. pose proof (process_inv parse prompt k files service Hk) as Hi.
  destruct (processCurrentAffairs parse prompt (Some k) files service) as [evs r].
  cbn in Hi |- *. destruct Hi as [Hc [Hd [Hl _]]].
  split; [lia|]. split; [exact Hc|]. rewrite Hd at 1. apply schedule_prefix. lia.
Qed.

Lemma run_shape_witness :
  let evs := fst (processCurrentAffairs JsonParse.json_parse "" (Some "key") []
                    (fun i => if Nat.eqb i 0 then Fail GeminiClaims.e503 else Resp None)) in
  1 <= calls evs <= 4 /\
  calls evs = S (length (delays evs)) /\
  delays evs = firstn (length (delays evs)) backoff_schedule.
Proof. apply run_shape. reflexivity. Defined.

(** With a key, a failure always carries an error (never [undefined]):
    either the format error or an error the service returned at one of
    the four attempts. *)
Theorem thrown_error_origin parse prompt k files service eo :
  str_truthy k = true ->
  snd (processCurrentAffairs parse prompt (Some k) files service) = RThrow eo ->
  exists e, eo = Some e /\
    (e = format_error \/ exists i, i < 4 /\ service i = Fail e).
Proof.
  intros Hk Hr. pose proof (process_inv parse prompt k files service Hk) as Hi.
  destruct (processCurrentAffairs parse prompt (Some k) files service) as [evs r].
  cbn in Hi, Hr. subst r. destruct Hi as [_ [_ [_ [e [He [Ho _]]]]]].
  exists e. split; [exact He|].
  destruct Ho as [Ho|[i [Hi Hs]]]; [left; exact Ho|right; exists i; split; [lia|exact Hs]].
Qed.

Lemma thrown_error_origin_witness :
  exists e, Some GeminiClaims.e400 = Some e /\
    (e = format_error \/ exists i, i < 4 /\ (fun _ => Fail GeminiClaims.e400) i = Fail e).
Proof.
  apply (thrown_error_origin JsonParse.json_parse "" "key" [] (fun _ => Fail GeminiClaims.e400));
    reflexivity.
Defined.

(** With a key, a transient error reaches the caller only after all four
    attempts, that is after the full 35 s of backoff. *)
Theorem transient_error_only_when_exhausted parse prompt k files service e :
  str_truthy k = true ->
  snd (processCurrentAffairs parse prompt (Some k) files service) = RThrow (Some e) ->
  is503 e = true ->
  let evs := fst (processCurrentAffairs parse prompt (Some k) files service) in
  calls evs = 4 /\ delays evs = backoff_schedule /\ total_delay evs = 35000%Z.
Proof.
  intros Hk Hr H5. pose proof (process_inv parse prompt k files service Hk) as Hi.
  destruct (processCurrentAffairs parse prompt (Some k) files service) as [evs r].
  cbn in Hi, Hr |- *. subst r. destruct Hi as [Hc [Hd [_ [e' [He [_ Hl]]]]]].
  injection He as <-. specialize (Hl H5). rewrite Hl in Hc, Hd. cbn in Hd.
  unfold total_delay. rewrite Hd. split; [exact Hc|]. split; reflexivity.
Qed.

Lemma transient_error_only_when_exhausted_witness :
  let evs := fst (processCurrentAffairs JsonParse.json_parse "" (Some "key") []
                    (fun _ => Fail GeminiClaims.e503)) in
  calls evs = 4 /\ delays evs = backoff_schedule /\ total_delay evs = 35000%Z.
Proof.
  apply (transient_error_only_when_exhausted JsonParse.json_parse "" "key" []
           (fun _ => Fail GeminiClaims.e503) GeminiClaims.e503); reflexivity.
Defined.

End GeminiExtra.

(** ** server.ts: the OAuth session routes *)
Module ServerAuth.
Import Server.

(** The session stored for one client: [None] when none is stored
    (never authorised, or destroyed by logout). *)
Definition client_state := option session.

(** [req.session] as express-session provides it: the stored session, or
    a fresh empty one. *)
Definition req_session (st : client_state) : session :=
  match st with Some s => s | None => mkSession None end.

(** Settlement of [oauth2Client.getToken(code)]. *)
Inductive token_exchange :=
| TokensOk (tokens : json)
| TokensErr.

(** The page sent by /auth/callback after a successful exchange. *)
Definition callback_page : string :=
  "
        <html>
          <body>
            <script>
              if (window.opener) {
                window.opener.postMessage({ type: 'OAUTH_AUTH_SUCCESS' }, '*');
                window.close();
              } else {
                window.location.href = '/';
              }
            </script>
            <p>Authentication successful. This window should close automatically.</p>
          </body>
        </html>
      ".

(** GET /auth/callback *)
Definition auth_callback (st : client_state) (x : token_exchange) : client_state * response :=
  match x with
  | TokensOk tokens => (Some (mkSession (Some tokens)), mkResponse 200 (JStr callback_page))
  | TokensErr => (st, mkResponse 500 (JStr "Authentication failed"))
  end.

(** GET /api/auth/status: [{ connected: !!req.session?.tokens }] *)
Definition auth_status (st : client_state) : response :=
  mkResponse 200 (JObj [("connected", JBool (truthy (tokens (req_session st))))]).

(** POST /api/auth/logout: [req.session.destroy(...)], then [{ success: true }]. *)
Definition auth_logout (st : client_state) : client_state * response :=
  (None, mkResponse 200 (JObj [("success", JBool true)])).

(** POST /api/sheets/update for this client. *)
Definition sheets_update_for (st : client_state) (spreadsheetId : option string)
  (data : option json) (append : append_outcome) : list sheets_event * response :=
  sheets_update (Some (req_session st)) spreadsheetId data append.

End ServerAuth.

(** ** Further properties of the server routes *)
Module ServerExtra.
Import Server ServerAuth.

Lemma row_shape it x : row it = inr x -> length x = 6 /\ it <> JNull.
Proof.
  intros H. split; [|intros ->; discriminate H].
  unfold row in H.
  destruct (get it "title"), (get it "subTitle"), (get it "date"),
           (get it "headline"), (get it "content"), (get it "staticGk");
    try discriminate.
  injection H as <-. reflexivity.
Qed.

Lemma map_rows_shape : forall items vs,
  map_rows items = inr vs ->
  length vs = length items /\ Forall (fun r => length r = 6) vs /\ ~ In JNull items.
Proof.
  induction items as [|it items IH]; intros vs H.
  - injection H as <-. split; [reflexivity|]. split; [constructor|intros []].
  - cbn in H. destruct (row it) as [e|x] eqn:Er; [discriminate|].
    destruct (map_rows items) as [e|xs]; [discriminate|].
    injection H as <-. destruct (IH xs eq_refl) as [Hl [Hf Hn]].
    destruct (row_shape it x Er) as [H6 Hnn].
    split; [cbn; rewrite Hl; reflexivity|]. split; [constructor; assumption|].
    intros [H|H]; [congruence|contradiction].
Qed.

(** Whatever the session and the request body, an append the route
    issues is its only network call; it goes to the configured
    spreadsheet, range "Current Affairs!A:F", USER_ENTERED, and only when
    [data] is an array with no [null] item; it then has one six-cell row
    per item.  A [null] item or a non-array [data] means no append. *)
Theorem sheets_append_shape sess spreadsheetId data append :
  let '(evs, _) := sheets_update sess spreadsheetId data append in
  forall sid range opt values, In (EAppend sid range opt values) evs ->
    evs = [EAppend sid range opt values] /\
    spreadsheetId = Some sid /\ range = "Current Affairs!A:F" /\ opt = "USER_ENTERED" /\
    exists items, data = Some (JArr items) /\ ~ In JNull items /\
      length values = length items /\ Forall (fun r => length r = 6) values.
Proof.
  unfold sheets_update.
  destruct sess as [s|]; [|intros ? ? ? ? []].
  destruct (negb (truthy (tokens s))); [intros ? ? ? ? []|].
  destruct spreadsheetId as [id|]; [|intros ? ? ? ? []].
  destruct (negb (str_truthy id)); [intros ? ? ? ? []|].
  destruct (negb (truthy data)); [intros ? ? ? ? []|].
  destruct data as [d|]; [|intros ? ? ? ? []].
  destruct (values_of d) as [msg|vs] eqn:Hv; [intros ? ? ? ? []|].
  intros sid range opt values [H|[]]. injection H as <- <- <- <-.
  split; [reflexivity|]. split; [reflexivity|]. split; [reflexivity|]. split; [reflexivity|].
  destruct d; try discriminate. cbn in Hv.
  destruct (map_rows_shape xs vs Hv) as [Hl [Hf Hn]].
  exists xs. split; [reflexivity|]. split; [exact Hn|]. split; [exact Hl|exact Hf].
Qed.

(** The route answers 200 exactly when it issued its append and the
    append succeeded. *)
Theorem sheets_success_iff_appended sess spreadsheetId data append :
  let '(evs, resp) := sheets_update sess spreadsheetId data append in
  status resp = 200%Z <->
  (exists sid values, evs = [EAppend sid "Current Affairs!A:F" "USER_ENTERED" values]) /\
  append = AppendOk.
Proof.
  unfold sheets_update.
  destruct sess as [s|];
    [|cbn; split; [discriminate|intros [[? [? H]] _]; discriminate]].
  destruct (negb (truthy (tokens s)));
    [cbn; split; [discriminate|intros [[? [? H]] _]; discriminate]|].
  destruct spreadsheetId as [id|];
    [|cbn; split; [discriminate|intros [[? [? H]] _]; discriminate]].
  destruct (negb (str_truthy id));
    [cbn; split; [discriminate|intros [[? [? H]] _]; discriminate]|].
  destruct (negb (truthy data));
    [cbn; split; [discriminate|intros [[? [? H]] _]; discriminate]|].
  destruct data as [d|];
    [|cbn; split; [discriminate|intros [[? [? H]] _]; discriminate]].
  destruct (values_of d) as [msg|vs];
    [cbn; split; [discriminate|intros [[? [? H]] _]; discriminate]|].
  destruct append as [|m].
  - cbn. split; [intros _; split; [eauto|reflexivity]|reflexivity].
  - split; [|intros [_ H]; discriminate].
    destruct (truthy m); [destruct m|]; cbn; discriminate.
Qed.

(** With an authorised session: no SPREADSHEET_ID gives 500 and no
    append; a falsy [data] gives 400 and no append; an empty array is not
    missing data: it is appended as zero rows and answered with success. *)
Theorem sheets_input_checks tok :
  truthy (Some tok) = true ->
  (forall spreadsheetId data append, (spreadsheetId = None \/ spreadsheetId = Some "") ->
     sheets_update (Some (mkSession (Some tok))) spreadsheetId data append
     = ([], error_response 500 "SPREADSHEET_ID is not configured on server")) /\
  (forall sid data append, str_truthy sid = true -> truthy data = false ->
     sheets_update (Some (mkSession (Some tok))) (Some sid) data append
     = ([], error_response 400 "Missing data")) /\
  (forall sid, str_truthy sid = true ->
     sheets_update (Some (mkSession (Some tok))) (Some sid) (Some (JArr [])) AppendOk
     = ([EAppend sid "Current Affairs!A:F" "USER_ENTERED" []],
        mkResponse 200 (JObj [("success", JBool true)]))).
Proof.
  intros Ht. unfold sheets_update. cbn [tokens]. rewrite Ht. cbn [negb].
  split; [|split].
  - intros sid data append [-> | ->]; reflexivity.
  - intros sid data append Hs Hd. rewrite Hs, Hd. reflexivity.
  - intros sid Hs. rewrite Hs. reflexivity.
Qed.

Lemma sheets_input_checks_witness :
  sheets_update (Some (mkSession (Some (JObj [("access_token", JStr "t")]))))
    (Some "sheet-1") (Some (JArr [])) AppendOk
  = ([EAppend "sheet-1" "Current Affairs!A:F" "USER_ENTERED" []],
     mkResponse 200 (JObj [("success", JBool true)])).
Proof.
  apply (sheets_input_checks (JObj [("access_token", JStr "t")]) eq_refl).
  reflexivity.
Defined.

Lemma authorised_not_401 s spreadsheetId data append :
  truthy (tokens s) = true ->
  status (snd (sheets_update (Some s) spreadsheetId data append)) <> 401%Z.
Proof.
  intros Ht. unfold sheets_update. rewrite Ht. cbn [negb].
  destruct spreadsheetId as [id|]; [|cbn; discriminate].
  destruct (negb (str_truthy id)); [cbn; discriminate|].
  destruct (negb (truthy data)); [cbn; discriminate|].
  destruct data as [d|]; [|cbn; discriminate].
  destruct (values_of d); [cbn; discriminate|].
  destruct append as [|m]; [cbn; discriminate|].
  destruct (truthy m); [destruct m|]; cbn; discriminate.
Qed.

(** Session lifecycle: a successful token exchange makes the status route
    report connected and lets the Sheets route past its authorisation
    check; after logout the status is disconnected and the Sheets route
    answers 401 without any call; a failed exchange answers 500 and leaves
    the session as it was. *)
Theorem session_lifecycle st tok spreadsheetId data append :
  truthy (Some tok) = true ->
  let st1 := fst (auth_callback st (TokensOk tok)) in
  let st2 := fst (auth_logout st1) in
  auth_status st1 = mkResponse 200 (JObj [("connected", JBool true)]) /\
  status (snd (sheets_update_for st1 spreadsheetId data append)) <> 401%Z /\
  auth_status st2 = mkResponse 200 (JObj [("connected", JBool false)]) /\
  sheets_update_for st2 spreadsheetId data append = ([], error_response 401 "Unauthorized") /\
  auth_callback st TokensErr = (st, mkResponse 500 (JStr "Authentication failed")).
Proof.
  intros Ht. cbn zeta. unfold auth_status, sheets_update_for. cbn [fst auth_callback req_session tokens].
  rewrite Ht. split; [reflexivity|]. split; [apply authorised_not_401; exact Ht|].
  split; [reflexivity|split; reflexivity].
Qed.

Lemma session_lifecycle_witness :
  let st1 := fst (auth_callback None (TokensOk (JObj [("access_token", JStr "t")]))) in
  let st2 := fst (auth_logout st1) in
  auth_status st1 = mkResponse 200 (JObj [("connected", JBool true)]) /\
  status (snd (sheets_update_for st1 (Some "sheet-1") None AppendOk)) <> 401%Z /\
  auth_status st2 = mkResponse 200 (JObj [("connected", JBool false)]) /\
  sheets_update_for st2 (Some "sheet-1") None AppendOk = ([], error_response 401 "Unauthorized") /\
  auth_callback None TokensErr = (None, mkResponse 500 (JStr "Authentication failed")).
Proof.
  apply (session_lifecycle None (JObj [("access_token", JStr "t")]) (Some "sheet-1") None AppendOk).
  reflexivity.
Defined.

End ServerExtra.

(** ** The React component (App): its state and handlers

    Each handler is one atomic step on the component state; the [await]s
    of a handler are resolved by the arguments it receives. *)
Module App.
Import Gemini Server ServerAuth.

(** The settlement of [processCurrentAffairs] (the record below has a
    field named [result]). *)
Definition settlement := result.

(** [interface UploadedFile] *)
Record UploadedFile := mkUploaded {
  id : string; name : string; uf_data : string; uf_mimeType : string }.

(** An entry of [e.target.files]: [file.name] and [file.type]. *)
Record picked := mkPicked { p_name : string; p_type : string }.

(** The [useState] hooks; [pending] are the files whose [FileReader] has
    not fired [onload] yet.  [result] and [error] are [null] as [None];
    [isGoogleConnected] holds whatever [setIsGoogleConnected] received
    ([None] is undefined). *)
Record app_state := mkApp {
  files : list UploadedFile;
  isProcessing : bool;
  result : option json;
  error : option json;
  isGoogleConnected : option json;
  isUpdatingSheet : bool;
  pending : list picked
}.

(** [useState] initial values. *)
Definition initial_state : app_state :=
  mkApp [] false None None (Some (JBool false)) false [].

Definition setFiles (st : app_state) (fs : list UploadedFile) : app_state :=
  mkApp fs st.(isProcessing) st.(result) st.(error) st.(isGoogleConnected)
    st.(isUpdatingSheet) st.(pending).
Definition setIsProcessing (st : app_state) (b : bool) : app_state :=
  mkApp st.(files) b st.(result) st.(error) st.(isGoogleConnected)
    st.(isUpdatingSheet) st.(pending).
Definition setResult (st : app_state) (r : option json) : app_state :=
  mkApp st.(files) st.(isProcessing) r st.(error) st.(isGoogleConnected)
    st.(isUpdatingSheet) st.(pending).
Definition setError (st : app_state) (e : option json) : app_state :=
  mkApp st.(files) st.(isProcessing) st.(result) e st.(isGoogleConnected)
    st.(isUpdatingSheet) st.(pending).
Definition setIsGoogleConnected (st : app_state) (v : option json) : app_state :=
  mkApp st.(files) st.(isProcessing) st.(result) st.(error) v
    st.(isUpdatingSheet) st.(pending).
Definition setIsUpdatingSheet (st : app_state) (b : bool) : app_state :=
  mkApp st.(files) st.(isProcessing) st.(result) st.(error) st.(isGoogleConnected)
    b st.(pending).
Definition setPending (st : app_state) (p : list picked) : app_state :=
  mkApp st.(files) st.(isProcessing) st.(result) st.(error) st.(isGoogleConnected)
    st.(isUpdatingSheet) p.

(** The body of [Array.from(selectedFiles).forEach(file => ...)]. *)
Definition pick_one (st : app_state) (f : picked) : app_state :=
  if negb (String.eqb f.(p_type) "application/pdf")
  then setError st (Some (JStr "Only PDF files are supported."))
  else setPending st (st.(pending) ++ [f])%list.

(** [handleFileChange]; [None] is a null [e.target.files]. *)
Definition handleFileChange (st : app_state) (selectedFiles : option (list picked))
  : app_state :=
  match selectedFiles with
  | None => st
  | Some fs => setError (fold_left pick_one fs st) None
  end.

(** [reader.onload] of the [n]-th pending read, with the data URL read
    ([event.target.result]) and the id drawn by [Math.random()]. *)
Definition onload (st : app_state) (n : nat) (base64 rid : string) : app_state :=
  match nth_error st.(pending) n with
  | None => st
  | Some f =>
      setPending
        (setFiles st (st.(files) ++ [mkUploaded rid f.(p_name) base64 f.(p_type)])%list)
        (firstn n st.(pending) ++ skipn (S n) st.(pending))%list
  end.

(** [removeFile(id)] *)
Definition removeFile (st : app_state) (rid : string) : app_state :=
  setFiles st (filter (fun f => negb (String.eqb f.(id) rid)) st.(files)).

(** The Clear button: [setFiles([])]. *)
Definition clearFiles (st : app_state) : app_state := setFiles st [].

Section Process.

(** [Number(s) > 0] for a string [s] (type conversion of the runtime). *)
Variable ToNumber_gt0 : string -> bool.

(** [x > 0] for a JSON value [x] ([undefined > 0] is [false]). *)
Definition gt0 (x : option json) : bool :=
  match x with
  | None | Some JNull => false
  | Some (JBool b) => b
  | Some (JNum z) => Z.ltb 0 z
  | Some (JStr s) => ToNumber_gt0 s
  | Some (JArr xs) => ToNumber_gt0 (JsConv.join_values "," xs)
  | Some (JObj _) => false
  end.

(** [output.length > 0] for a non-null parsed value: the array or string
    length, or the [length] property of an object. *)
Definition length_gt0 (output : json) : bool :=
  match output with
  | JArr xs => Nat.ltb 0 (length xs)
  | JStr s => Nat.ltb 0 (String.length s)
  | JObj _ => match get output "length" with inr v => gt0 v | inl _ => false end
  | _ => false
  end.

(** [handleProcess]; [call] settles [processCurrentAffairs(files)], and
    [None] is the early return on an empty queue.  A thrown [undefined]
    makes [err.message] throw inside the catch block: only the
    [finally] block then runs. *)
Definition handleProcess (st : app_state) (call : list UploadedFile -> settlement)
  : option app_state :=
  match st.(files) with
  | [] => None
  | fs =>
      let st1 := setError (setIsProcessing st true) None in
      let st2 :=
        match call fs with
        | RReturn output =>
            let ok := truthy (Some output) && length_gt0 output in
            let st' := setResult st1 (if ok then Some output else None) in
            if ok then st'
            else setError st' (Some (JStr "No exam-relevant content found in the uploaded documents."))
        | RThrow (Some err) =>
            setError st1 (if truthy err.(err_message) then err.(err_message)
                          else Some (JStr "An error occurred while processing the files."))
        | RThrow None => st1
        end in
      Some (setIsProcessing st2 false)
  end.

End Process.

(** The [files] as [processCurrentAffairs] reads them ([file.data],
    [file.mimeType]). *)
Definition to_file (u : UploadedFile) : file := mkFile u.(uf_data) u.(uf_mimeType).

(** [handleUpdateSheet]: [server d] is the answer of POST
    /api/sheets/update to the body [{ data: d }] (its effects and its
    response).  On a non-2xx answer, [new Error(data.error || ...)] has
    as [message] the string conversion of its argument. *)
Definition handleUpdateSheet (st : app_state)
  (server : json -> list sheets_event * response) : list sheets_event * app_state :=
  match st.(result) with
  | None => ([], st)
  | Some r =>
      if negb (truthy (Some r)) then ([], st)
      else
        let st1 := setError (setIsUpdatingSheet st true) None in
        let '(evs, res) := server r in
        let st2 :=
          if Z.leb 200 res.(status) && Z.ltb res.(status) 300 then st1
          else
            setError st1 (Some (JStr
              (match get res.(body) "error" with
               | inl msg => msg
               | inr e => if truthy e
                          then match e with Some v => JsConv.join_elem v | None => "" end
                          else "Failed to update sheet"
               end))) in
        (evs, setIsUpdatingSheet st2 false)
  end.

(** [checkGoogleStatus]: [None] when the fetch or [res.json()] rejects
    (the catch block only logs); otherwise the parsed body. *)
Definition checkGoogleStatus (st : app_state) (data : option json) : app_state :=
  match data with
  | None => st
  | Some d =>
      match get d "connected" with
      | inl _ => st
      | inr v => setIsGoogleConnected st v
      end
  end.

(** [s.endsWith(suffix)] *)
Definition endsWith (s suffix : string) : bool :=
  Nat.leb (String.length suffix) (String.length s) &&
  String.eqb (substring (String.length s - String.length suffix) (String.length suffix) s) suffix.

(** The [message] listener: [origin] is [event.origin], [data_type] is
    [event.data?.type]. *)
Definition handleMessage (st : app_state) (origin : string) (data_type : option json)
  : app_state :=
  if negb (endsWith origin ".run.app") && negb (JsString.includes "localhost" origin)
  then st
  else match data_type with
       | Some (JStr t) =>
           if String.eqb t "OAUTH_AUTH_SUCCESS"
           then setIsGoogleConnected st (Some (JBool true)) else st
       | _ => st
       end.

(** The component's steps, each handler atomic. *)
Inductive app_step : app_state -> app_state -> Prop :=
| StepFileChange st sel : app_step st (handleFileChange st sel)
| StepLoad st n base64 rid : app_step st (onload st n base64 rid)
| StepRemove st rid : app_step st (removeFile st rid)
| StepClear st : app_step st (clearFiles st)
| StepProcess gt call st st' :
    handleProcess gt st call = Some st' -> app_step st st'
| StepUpdate st server evs st' :
    handleUpdateSheet st server = (evs, st') -> app_step st st'
| StepStatus st d : app_step st (checkGoogleStatus st d)
| StepMessage st o t : app_step st (handleMessage st o t).

Inductive reachable : app_state -> Prop :=
| reach_init : reachable initial_state
| reach_step st st' : reachable st -> app_step st st' -> reachable st'.

End App.

Module AppExtra.
Import Gemini Server ServerAuth ServerClaims GeminiExtra App.

Definition is_pdf (f : picked) : bool := String.eqb f.(p_type) "application/pdf".

Lemma fold_pick_one fs : forall st,
  setError (fold_left pick_one fs st) None =
  setError (setPending st (pending st ++ filter is_pdf fs)%list) None.
Proof.
  induction fs as [|f fs IH]; intros st.
  - destruct st; cbn. rewrite app_nil_r. reflexivity.
  - cbn [fold_left filter]. rewrite IH. unfold pick_one, is_pdf.
    destruct (String.eqb (p_type f) "application/pdf"); destruct st; cbn;
      [rewrite <- app_assoc; reflexivity | reflexivity].
Qed.

(** The PDF-only queue: queued and pending files are all PDFs. *)
Definition pdf_queue (st : app_state) : Prop :=
  Forall (fun f => uf_mimeType f = "application/pdf") (files st) /\
  Forall (fun f => p_type f = "application/pdf") (pending st).

Lemma Forall_firstn_skipn {A} (P : A -> Prop) l m :
  Forall P l -> Forall P (firstn m l) /\ Forall P (skipn m l).
Proof. intros H. rewrite <- (firstn_skipn m l) in H. apply Forall_app in H. exact H. Qed.

Lemma Forall_filter_keep {A} (P : A -> Prop) (g : A -> bool) l :
  Forall P l -> Forall P (filter g l).
Proof.
  intros H. apply Forall_forall. intros x Hx. apply filter_In in Hx as [Hx _].
  rewrite Forall_forall in H. exact (H x Hx).
Qed.

(** [handleProcess] only writes [isProcessing], [result] and [error]. *)
Lemma handleProcess_frame gt st call st' :
  handleProcess gt st call = Some st' ->
  files st' = files st /\ pending st' = pending st /\
  isGoogleConnected st' = isGoogleConnected st /\
  isUpdatingSheet st' = isUpdatingSheet st /\ isProcessing st' = false.
Proof.
  unfold handleProcess. destruct (files st) eqn:E; [discriminate|].
  intros H. injection H as <-.
  destruct (call _) as [o|[e|]]; cbn;
    repeat match goal with |- context [if ?b then _ else _] => destruct b end;
    cbn; rewrite ?E; repeat split.
Qed.

(** [handleUpdateSheet] only writes [isUpdatingSheet] and [error]. *)
Lemma handleUpdateSheet_frame st server evs st' :
  handleUpdateSheet st server = (evs, st') ->
  files st' = files st /\ pending st' = pending st /\ result st' = result st /\
  isGoogleConnected st' = isGoogleConnected st /\ isProcessing st' = isProcessing st.
Proof.
  unfold handleUpdateSheet. destruct (result st) as [r|] eqn:E.
  - destruct (negb (truthy (Some r))).
    + intros H. injection H as _ <-. rewrite E. repeat split.
    + destruct (server r) as [evs0 res]. intros H. injection H as _ <-.
      destruct (Z.leb 200 (status res) && Z.ltb (status res) 300); cbn; rewrite ?E; repeat split.
  - intros H. injection H as _ <-. rewrite E. repeat split.
Qed.

Lemma step_pdf_queue st st' : app_step st st' -> pdf_queue st -> pdf_queue st'.
Proof.
  intros Hs [Hf Hp]. destruct Hs as [st sel|st n b rid|st rid|st|gt call st st' H
                                   |st server evs st' H|st d|st o t].
  - destruct sel as [fs|]; [|split; assumption].
    unfold handleFileChange. rewrite fold_pick_one. destruct st; cbn in *.
    split; [exact Hf|]. apply Forall_app. split; [exact Hp|].
    apply Forall_forall. intros x Hx. apply filter_In in Hx as [_ Hx].
    apply String.eqb_eq. exact Hx.
  - unfold onload. destruct (nth_error (pending st) n) as [f|] eqn:E; [|split; assumption].
    assert (Hpf : p_type f = "application/pdf").
    { apply nth_error_In in E. rewrite Forall_forall in Hp. exact (Hp f E). }
    destruct st; cbn in *. split.
    + apply Forall_app. split; [exact Hf|]. constructor; [exact Hpf|constructor].
    + apply Forall_app. split; [apply (Forall_firstn_skipn _ _ n Hp)|apply (Forall_firstn_skipn _ _ (S n) Hp)].
  - destruct st; cbn in *. split; [apply Forall_filter_keep; exact Hf|exact Hp].
  - destruct st; cbn in *. split; [constructor|exact Hp].
  - apply handleProcess_frame in H as [H1 [H2 _]]. unfold pdf_queue. rewrite H1, H2. split; assumption.
  - apply handleUpdateSheet_frame in H as [H1 [H2 _]]. unfold pdf_queue. rewrite H1, H2. split; assumption.
  - unfold checkGoogleStatus. destruct d as [d|]; [|split; assumption].
    destruct (get d "connected"); [split; assumption|]. destruct st; split; assumption.
  - unfold handleMessage. destruct (negb (endsWith o ".run.app") && negb (JsString.includes "localhost" o));
      [split; assumption|].
    destruct t as [[| | | s | |]|]; try (split; assumption).
    destruct (String.eqb s "OAUTH_AUTH_SUCCESS"); destruct st; split; assumption.
Qed.

Lemma reachable_pdf_queue st : reachable st -> pdf_queue st.
Proof.
  induction 1 as [|st st' _ IH Hs]; [split; constructor|].
  exact (step_pdf_queue st st' Hs IH).
Qed.

(** The pipeline of the Process button: [processCurrentAffairs] on the
    queued files. *)
Definition run_app parse prompt apiKey service (fs : list UploadedFile) : settlement :=
  snd (processCurrentAffairs parse prompt apiKey (map to_file fs) service).

(** The server as the client reaches it: POST /api/sheets/update for the
    session [cs], with [{ data: d }] read back as [req.body.data = d]. *)
Definition sheets_server (cs : client_state) (sid : option string) (append : append_outcome)
  : json -> list sheets_event * response :=
  fun d => sheets_update_for cs sid (Some d) append.

(** A state reached by picking a PDF and a PNG and letting the PDF load. *)
Definition demo_state : app_state :=
  onload (handleFileChange initial_state
            (Some [mkPicked "notes.pdf" "application/pdf"; mkPicked "photo.png" "image/png"]))
         0 "data:application/pdf;base64,JVBERi0x" "k2j4h6g8f".

Lemma run_app_cases parse prompt apiKey service fs :
  (exists v, run_app parse prompt apiKey service fs = RReturn v) \/
  run_app parse prompt apiKey service fs = RThrow (Some config_error) \/
  run_app parse prompt apiKey service fs = RThrow (Some format_error) \/
  exists i e, i < 4 /\ service i = Fail e /\ run_app parse prompt apiKey service fs = RThrow (Some e).
Proof.
  unfold run_app. destruct apiKey as [k|]; [|right; left; reflexivity].
  destruct (str_truthy k) eqn:Hk; [|right; left; unfold processCurrentAffairs; rewrite Hk; reflexivity].
  pose proof (process_inv parse prompt k (map to_file fs) service Hk) as Hi.
  destruct (processCurrentAffairs parse prompt (Some k) (map to_file fs) service) as [evs r].
  cbn [snd]. destruct r as [v|eo]; [left; eexists; reflexivity|].
  destruct Hi as [_ [_ [_ [e [-> [[->|[i [Hi Hs]]] _]]]]]].
  - right; right; left; reflexivity.
  - right; right; right. exists i, e. split; [lia|split; [exact Hs|reflexivity]].
Qed.

Lemma string_length_app a b : String.length (a ++ b) = String.length a + String.length b.
Proof. induction a as [|c a IH]; cbn; [reflexivity|rewrite IH; reflexivity]. Qed.

Lemma substring_full s : substring 0 (String.length s) s = s.
Proof. induction s as [|c s IH]; cbn; [reflexivity|rewrite IH; reflexivity]. Qed.

Lemma substring_app a s m : substring (String.length a) m (a ++ s) = substring 0 m s.
Proof.
  induction a as [|c a IH]; [reflexivity|].
  cbn [String.length append]. destruct m; cbn; exact IH.
Qed.

Lemma endsWith_app a s : endsWith (a ++ s) s = true.
Proof.
  unfold endsWith. rewrite string_length_app.
  replace (String.length a + String.length s - String.length s) with (String.length a) by lia.
  rewrite substring_app, substring_full, String.eqb_refl.
  apply andb_true_iff. split; [apply Nat.leb_le; lia|reflexivity].
Qed.

Lemma prefix_app s b : String.prefix s (s ++ b) = true.
Proof.
  induction s as [|c s IH]; [destruct b; reflexivity|]. cbn.
  destruct (ascii_dec c c); [exact IH|contradiction].
Qed.

Lemma includes_app a needle b : JsString.includes needle (a ++ needle ++ b) = true.
Proof.
  induction a as [|c a IH].
  - cbn [append]. destruct (needle ++ b) eqn:E; cbn [JsString.includes];
      rewrite <- E, prefix_app; reflexivity.
  - cbn [append JsString.includes]. rewrite IH. apply orb_true_r.
Qed.

Lemma concat_join sep xs : String.concat sep xs = JsString.join sep xs.
Proof.
  induction xs as [|x xs IH]; [reflexivity|].
  destruct xs as [|y ys]; [reflexivity|].
  cbn in IH |- *. rewrite IH. reflexivity.
Qed.

(** [handleFileChange] queues the PDFs of a selection for reading, in
    order, and silently drops every other file: the 'Only PDF files are
    supported.' error set for a dropped file is always overwritten by the
    final [setError(null)]. *)
Theorem file_change_drops_non_pdfs st fs :
  handleFileChange st (Some fs) =
  setError (setPending st (pending st ++ filter is_pdf fs)%list) None.
Proof. unfold handleFileChange. apply fold_pick_one. Qed.

(** In every reachable state of the component the queued files are all
    PDFs, so every request the Process button makes to the model carries
    only [application/pdf] documents. *)
Theorem requests_carry_only_pdfs parse prompt apiKey service st :
  reachable st ->
  Forall (fun f => uf_mimeType f = "application/pdf") (files st) /\
  forall r, In (ECall r) (fst (processCurrentAffairs parse prompt apiKey
                                 (map to_file (files st)) service)) ->
  forall d m, In (InlineData d m) (req_parts r) -> m = "application/pdf".
Proof.
  intros Hr. destruct (reachable_pdf_queue st Hr) as [Hf _]. split; [exact Hf|].
  intros r Hin d m Hp. unfold processCurrentAffairs in Hin.
  destruct apiKey as [k|]; [|destruct Hin].
  destruct (str_truthy k); [|destruct Hin].
  apply GeminiTrace.retry_loop_calls_req in Hin. subst r.
  cbn [requestConfig req_parts] in Hp.
  apply in_app_or in Hp as [Hp|[Hp|[]]]; [|discriminate Hp].
  rewrite map_map in Hp. apply in_map_iff in Hp as [u [Hu Hin]].
  unfold to_part, to_file in Hu. cbn in Hu. injection Hu as _ <-.
  rewrite Forall_forall in Hf. exact (Hf u Hin).
Qed.

Lemma requests_carry_only_pdfs_witness :
  reachable demo_state /\
  (Forall (fun f => uf_mimeType f = "application/pdf") (files demo_state) /\
   forall r, In (ECall r) (fst (processCurrentAffairs JsonParse.json_parse "Summarise."
                                  (Some "key") (map to_file (files demo_state))
                                  (fun _ => Resp (Some "[]")))) ->
   forall d m, In (InlineData d m) (req_parts r) -> m = "application/pdf").
Proof.
  assert (H : reachable demo_state).
  { eapply reach_step; [eapply reach_step; [apply reach_init|apply StepFileChange]|apply StepLoad]. }
  split; [exact H|apply requests_carry_only_pdfs; exact H].
Defined.

(** With files queued, the Process button always ends with
    [isProcessing] false and the queue untouched, in one of three
    states: a non-empty result and no error; no result and the
    no-content message (an empty or non-array answer); or the previous
    result kept with the error of the failed run, which is the missing-key
    message, the format message, or the message of an error the service
    returned at one of the four attempts (the generic message when it has
    none). *)
Theorem process_ui_outcome gt parse prompt apiKey service st :
  files st <> [] ->
  exists st', handleProcess gt st (run_app parse prompt apiKey service) = Some st' /\
  isProcessing st' = false /\ files st' = files st /\
  ((error st' = None /\ exists v, result st' = Some v /\ truthy (Some v) && length_gt0 gt v = true) \/
   (result st' = None /\
    error st' = Some (JStr "No exam-relevant content found in the uploaded documents.")) \/
   (result st' = result st /\
    (error st' = err_message config_error \/ error st' = err_message format_error \/
     exists i e, i < 4 /\ service i = Fail e /\
       error st' = (if truthy (err_message e) then err_message e
                    else Some (JStr "An error occurred while processing the files."))))).
Proof.
  intros Hne. unfold handleProcess.
  destruct (files st) as [|u us] eqn:E; [congruence|].
  eexists; split; [reflexivity|].
  destruct (run_app_cases parse prompt apiKey service (u :: us))
    as [[v Hv]|[Hv|[Hv|[i [e [Hi [Hs Hv]]]]]]]; rewrite Hv.
  - cbn -[truthy length_gt0]. destruct (truthy (Some v) && length_gt0 gt v) eqn:Ok; cbn.
    + split; [reflexivity|]. split; [exact E|]. left. split; [reflexivity|].
      exists v. split; [reflexivity|exact Ok].
    + split; [reflexivity|]. split; [exact E|]. right; left. split; reflexivity.
  - cbn. split; [reflexivity|]. split; [exact E|]. right; right. split; [reflexivity|left; reflexivity].
  - cbn. split; [reflexivity|]. split; [exact E|]. right; right. split; [reflexivity|right; left; reflexivity].
  - cbn -[truthy]. split; [reflexivity|]. split; [exact E|]. right; right. split; [reflexivity|].
    right; right. exists i, e. split; [exact Hi|split; [exact Hs|reflexivity]].
Qed.

Lemma process_ui_outcome_witness :
  files demo_state <> [] /\
  exists st', handleProcess (fun _ => false) demo_state
                (run_app JsonParse.json_parse "Summarise." (Some "key") (fun _ => Resp None))
              = Some st' /\
  isProcessing st' = false /\ files st' = files demo_state /\
  ((error st' = None /\ exists v, result st' = Some v /\
      truthy (Some v) && length_gt0 (fun _ => false) v = true) \/
   (result st' = None /\
    error st' = Some (JStr "No exam-relevant content found in the uploaded documents.")) \/
   (result st' = result demo_state /\
    (error st' = err_message config_error \/ error st' = err_message format_error \/
     exists i e, i < 4 /\ (fun _ : nat => Resp None) i = Fail e /\
       error st' = (if truthy (err_message e) then err_message e
                    else Some (JStr "An error occurred while processing the files."))))).
Proof.
  assert (H : files demo_state <> []) by (vm_compute; discriminate).
  split; [exact H|apply process_ui_outcome; exact H].
Defined.

Lemma updating_state_eta st e :
  setIsUpdatingSheet (setError (setError (setIsUpdatingSheet st true) None) e) false =
  setIsUpdatingSheet (setError st e) false.
Proof. destruct st; reflexivity. Qed.

(** With a signed-in session, a configured spreadsheet and a list of
    NewsItems as result, the Update Sheet button makes exactly one append
    of one row per item and clears the error; when the append fails with
    a message, that message becomes the error shown. *)
Theorem update_sheet_ui cs sid items st :
  truthy (tokens (req_session cs)) = true -> str_truthy sid = true ->
  result st = Some (JArr (map item_to_json items)) ->
  handleUpdateSheet st (sheets_server cs (Some sid) AppendOk) =
    ([EAppend sid "Current Affairs!A:F" "USER_ENTERED" (map spec_row items)],
     setIsUpdatingSheet (setError st None) false) /\
  forall m, str_truthy m = true ->
  handleUpdateSheet st (sheets_server cs (Some sid) (AppendFail (Some (JStr m)))) =
    ([EAppend sid "Current Affairs!A:F" "USER_ENTERED" (map spec_row items)],
     setIsUpdatingSheet (setError st (Some (JStr m))) false).
Proof.
  intros Ht Hs Hr. unfold handleUpdateSheet, sheets_server, sheets_update_for, sheets_update.
  rewrite Hr. cbn [truthy negb]. rewrite Ht, Hs. cbn [negb truthy values_of].
  rewrite map_rows_items. split.
  - cbn. destruct st; reflexivity.
  - intros m Hm. cbn [truthy]. rewrite Hm. cbn. rewrite Hm. cbn.
    apply (f_equal (fun x => (_, x))). apply updating_state_eta.
Qed.

Lemma update_sheet_ui_witness :
  (truthy (tokens (req_session (Some (mkSession (Some (JObj [("access_token", JStr "t")])))))) = true
   /\ str_truthy "sheet-1" = true
   /\ result (setResult initial_state (Some (JArr [item_to_json (mkNewsItem "Polity" "Courts" "2026-10-15" "H" ["a"] [])])))
      = Some (JArr (map item_to_json [mkNewsItem "Polity" "Courts" "2026-10-15" "H" ["a"] []]))) /\
  (handleUpdateSheet (setResult initial_state (Some (JArr [item_to_json (mkNewsItem "Polity" "Courts" "2026-10-15" "H" ["a"] [])])))
     (sheets_server (Some (mkSession (Some (JObj [("access_token", JStr "t")])))) (Some "sheet-1") AppendOk) =
   ([EAppend "sheet-1" "Current Affairs!A:F" "USER_ENTERED" (map spec_row [mkNewsItem "Polity" "Courts" "2026-10-15" "H" ["a"] []])],
    setIsUpdatingSheet (setError (setResult initial_state (Some (JArr [item_to_json (mkNewsItem "Polity" "Courts" "2026-10-15" "H" ["a"] [])]))) None) false) /\
   forall m, str_truthy m = true ->
   handleUpdateSheet (setResult initial_state (Some (JArr [item_to_json (mkNewsItem "Polity" "Courts" "2026-10-15" "H" ["a"] [])])))
     (sheets_server (Some (mkSession (Some (JObj [("access_token", JStr "t")])))) (Some "sheet-1") (AppendFail (Some (JStr m)))) =
   ([EAppend "sheet-1" "Current Affairs!A:F" "USER_ENTERED" (map spec_row [mkNewsItem "Polity" "Courts" "2026-10-15" "H" ["a"] []])],
    setIsUpdatingSheet (setError (setResult initial_state (Some (JArr [item_to_json (mkNewsItem "Polity" "Courts" "2026-10-15" "H" ["a"] [])]))) (Some (JStr m))) false)).
Proof.
  split; [split; [reflexivity|split; reflexivity]|].
  apply update_sheet_ui; reflexivity.
Defined.

(** Without a signed-in session (never connected, or after logout) the
    Update Sheet button makes no append and shows 'Unauthorized', keeping
    the result; with no result it does nothing at all. *)
Theorem update_sheet_without_session cs sid append st r :
  truthy (tokens (req_session cs)) = false ->
  result st = Some r -> truthy (Some r) = true ->
  handleUpdateSheet st (sheets_server cs sid append) =
    ([], setIsUpdatingSheet (setError st (Some (JStr "Unauthorized"))) false) /\
  handleUpdateSheet (setResult st None) (sheets_server cs sid append) = ([], setResult st None).
Proof.
  intros Ht Hr Hrt. split; [|reflexivity].
  unfold handleUpdateSheet, sheets_server, sheets_update_for, sheets_update.
  rewrite Hr, Hrt. cbn [negb]. rewrite Ht. cbn.
  apply (f_equal (fun x => (_, x))). apply updating_state_eta.
Qed.

Lemma update_sheet_without_session_witness :
  (truthy (tokens (req_session (fst (auth_logout (Some (mkSession (Some (JStr "t")))))))) = false /\
   result (setResult initial_state (Some (JArr []))) = Some (JArr []) /\
   truthy (Some (JArr [])) = true) /\
  (handleUpdateSheet (setResult initial_state (Some (JArr [])))
     (sheets_server (fst (auth_logout (Some (mkSession (Some (JStr "t")))))) (Some "sheet-1") AppendOk) =
   ([], setIsUpdatingSheet (setError (setResult initial_state (Some (JArr []))) (Some (JStr "Unauthorized"))) false) /\
   handleUpdateSheet (setResult (setResult initial_state (Some (JArr []))) None)
     (sheets_server (fst (auth_logout (Some (mkSession (Some (JStr "t")))))) (Some "sheet-1") AppendOk) =
   ([], setResult (setResult initial_state (Some (JArr []))) None)).
Proof.
  split; [split; [reflexivity|split; reflexivity]|].
  apply (update_sheet_without_session _ _ _ _ (JArr [])); reflexivity.
Defined.

(** The [message] listener accepts OAUTH_AUTH_SUCCESS from any origin
    ending in ".run.app" (any Cloud Run service) and from any origin that
    contains "localhost" anywhere (such as a host named
    localhost.example.com); a message from any other origin, or of any
    other type, changes nothing; and every message either leaves the
    state as it is or only sets [isGoogleConnected] to true. *)
Theorem message_origin_check st a b :
  handleMessage st (a ++ ".run.app") (Some (JStr "OAUTH_AUTH_SUCCESS")) =
    setIsGoogleConnected st (Some (JBool true)) /\
  handleMessage st (a ++ "localhost" ++ b) (Some (JStr "OAUTH_AUTH_SUCCESS")) =
    setIsGoogleConnected st (Some (JBool true)) /\
  (forall o t, t <> Some (JStr "OAUTH_AUTH_SUCCESS") -> handleMessage st o t = st) /\
  (forall o t, endsWith o ".run.app" = false -> JsString.includes "localhost" o = false ->
   handleMessage st o t = st) /\
  (forall o t, handleMessage st o t = st \/
               handleMessage st o t = setIsGoogleConnected st (Some (JBool true))).
Proof.
  split; [|split; [|split; [|split]]].
  - unfold handleMessage. rewrite endsWith_app. reflexivity.
  - unfold handleMessage. rewrite includes_app, andb_false_r. reflexivity.
  - intros o t Ht. unfold handleMessage.
    destruct (negb (endsWith o ".run.app") && negb (JsString.includes "localhost" o)); [reflexivity|].
    destruct t as [[| | |s| |]|]; try reflexivity.
    destruct (String.eqb s "OAUTH_AUTH_SUCCESS") eqn:E; [|reflexivity].
    apply String.eqb_eq in E. subst s. contradiction.
  - intros o t He Hl. unfold handleMessage. rewrite He, Hl. reflexivity.
  - intros o t. unfold handleMessage.
    destruct (negb (endsWith o ".run.app") && negb (JsString.includes "localhost" o));
      [left; reflexivity|].
    destruct t as [[| | |s| |]|]; try (left; reflexivity).
    destruct (String.eqb s "OAUTH_AUTH_SUCCESS"); [right|left]; reflexivity.
Qed.

(** [checkGoogleStatus] against GET /api/auth/status shows whether the
    client's session holds tokens: connected right after a successful
    OAuth callback, disconnected after logout; a failed status request
    leaves the state as it was. *)
Theorem status_tracks_session st cs tok :
  truthy (Some tok) = true ->
  isGoogleConnected (checkGoogleStatus st (Some (body (auth_status cs)))) =
    Some (JBool (truthy (tokens (req_session cs)))) /\
  isGoogleConnected (checkGoogleStatus st
    (Some (body (auth_status (fst (auth_callback cs (TokensOk tok))))))) = Some (JBool true) /\
  isGoogleConnected (checkGoogleStatus st
    (Some (body (auth_status (fst (auth_logout cs)))))) = Some (JBool false) /\
  checkGoogleStatus st None = st.
Proof.
  intros Ht. split; [reflexivity|]. split; [|split; reflexivity].
  cbn -[truthy]. rewrite Ht. reflexivity.
Qed.

Lemma status_tracks_session_witness :
  truthy (Some (JObj [("access_token", JStr "t")])) = true /\
  isGoogleConnected (checkGoogleStatus initial_state (Some (body (auth_status None)))) =
    Some (JBool (truthy (tokens (req_session None)))) /\
  isGoogleConnected (checkGoogleStatus initial_state
    (Some (body (auth_status (fst (auth_callback None (TokensOk (JObj [("access_token", JStr "t")])))))))) = Some (JBool true) /\
  isGoogleConnected (checkGoogleStatus initial_state
    (Some (body (auth_status (fst (auth_logout None)))))) = Some (JBool false) /\
  checkGoogleStatus initial_state None = initial_state.
Proof. split; [reflexivity|apply status_tracks_session; reflexivity]. Defined.

(** The rows the Update Sheet button appends for a result are the rows of
    the Excel file downloaded for the same result: the same cells in the
    same column order (Section, Sub-Section, Date, Headline, Content,
    Static GK). *)
Theorem sheet_rows_match_excel (date_t : Type) iso now items :
  exists fileName wb,
    Export_.handleDownloadExcel date_t iso (Some items) now = Some (fileName, wb) /\
    values_of (JArr (map item_to_json items)) =
      inr (map (map (fun p => Some (JStr (snd p)))) (Export_.sheet_rows wb)) /\
    Forall (fun r => map fst r = ["Section"; "Sub-Section"; "Date"; "Headline"; "Content"; "Static GK"])
      (Export_.sheet_rows wb).
Proof.
  do 2 eexists. split; [reflexivity|]. cbn [Export_.sheet_rows values_of].
  rewrite map_rows_items. split.
  - f_equal. rewrite map_map. apply map_ext. intros [t sb d h c g].
    unfold spec_row, Export_.excel_row. cbn. rewrite !concat_join.
    destruct g; reflexivity.
  - apply Forall_forall. intros r Hr. apply in_map_iff in Hr as [it [<- _]]. reflexivity.
Qed.

(** Removing a file drops every queued file with that id (ids are random
    and may collide) and keeps the others; neither Remove nor Clear
    cancels a read in flight: both leave the pending reads as they are,
    so a file removed or cleared while loading still arrives in the
    queue when its read completes. *)
Theorem remove_and_clear st rid f :
  (In f (files (removeFile st rid)) <-> In f (files st) /\ id f <> rid) /\
  pending (removeFile st rid) = pending st /\
  pending (clearFiles st) = pending st /\
  forall p rest base64 rid', pending st = p :: rest ->
  files (onload (removeFile st rid) 0 base64 rid') =
    (files (removeFile st rid) ++ [mkUploaded rid' (p_name p) base64 (p_type p)])%list /\
  files (onload (clearFiles st) 0 base64 rid') = [mkUploaded rid' (p_name p) base64 (p_type p)].
Proof.
  split; [|split; [|split]].
  - destruct st; cbn. rewrite filter_In, negb_true_iff, String.eqb_neq. reflexivity.
  - destruct st; reflexivity.
  - destruct st; reflexivity.
  - intros p rest b r' Hp. unfold onload, removeFile, clearFiles. destruct st; cbn in *.
    rewrite Hp. split; reflexivity.
Qed.

End AppExtra.
